(** * reader2pinboard: Readwise Reader -> Pinboard import script

    A shallow embedding of [reader2pinboard.py] and the properties of its
    fetch / filter / transform / submit pipeline.

    The script is a Python program working on decoded JSON.  The embedding
    keeps that shape:
    - [Py.value] is the universe of values [json()] can return;
    - the interpreter state the script can observe (the lastrun file, the
      console, the network) is the record [world];
    - a Python function with effects is a function in the monad [M], whose
      outcomes are a return value, a raised exception, or [Stuck] when the
      scripted network has no further reply to give. *)

From Stdlib Require Import String Ascii List ZArith Lia Bool DecimalString.
Import ListNotations.
Open Scope string_scope.

#[local] Set Warnings "-register-all".

(** ** Python values *)

Module Py.

(** Decoded JSON.  A [VDict] lists its items in insertion order; keys are
    distinct in every dict the decoder builds.  JSON numbers are kept as
    integers: the script only ever tests them for truth or prints them. *)
Inductive value : Type :=
| VNone
| VBool (b : bool)
| VInt (z : Z)
| VStr (s : string)
| VList (l : list value)
| VDict (items : list (string * value)).

(** [bool(v)]: what [if v:] and [not v] test. *)
Definition truthy (v : value) : bool :=
  match v with
  | VNone => false
  | VBool b => b
  | VInt z => negb (Z.eqb z 0)
  | VStr s => negb (String.eqb s "")
  | VList l => match l with [] => false | _ => true end
  | VDict d => match d with [] => false | _ => true end
  end.

(** [v == 'literal'] against a string literal. *)
Definition eq_str (v : value) (lit : string) : bool :=
  match v with
  | VStr s => String.eqb s lit
  | _ => false
  end.

(** [d.get(key, default)] on the items of a dict. *)
Fixpoint lookup (key : string) (items : list (string * value)) : option value :=
  match items with
  | [] => None
  | (k, v) :: rest => if String.eqb k key then Some v else lookup key rest
  end.

Definition get_default (items : list (string * value)) (key : string)
    (default : value) : value :=
  match lookup key items with
  | Some v => v
  | None => default
  end.

(** [list(d.keys())]. *)
Definition keys (items : list (string * value)) : list value :=
  map (fun kv => VStr (fst kv)) items.

(** The characters of a string, each as a one-character string: what
    iterating over a [str] yields. *)
Fixpoint chars (s : string) : list value :=
  match s with
  | EmptyString => []
  | String c rest => VStr (String c EmptyString) :: chars rest
  end.

(** [iter(v)]: the elements a [for] loop or [list.extend] sees; [None]
    when the value is not iterable (a TypeError). *)
Definition iterate (v : value) : option (list value) :=
  match v with
  | VList l => Some l
  | VDict d => Some (keys d)
  | VStr s => Some (chars s)
  | VNone | VBool _ | VInt _ => None
  end.

(** [s.replace(' ', '')]. *)
Fixpoint remove_spaces (s : string) : string :=
  match s with
  | EmptyString => EmptyString
  | String c rest =>
      if Ascii.eqb c " "%char then remove_spaces rest
      else String c (remove_spaces rest)
  end.

(** [s[:n]] on a string. *)
Definition str_prefix (n : nat) (s : string) : string := substring 0 n s.

(** *** [str()] and [repr()] *)

Definition hex_digit (n : nat) : ascii :=
  match n with
  | 0 => "0" | 1 => "1" | 2 => "2" | 3 => "3" | 4 => "4" | 5 => "5"
  | 6 => "6" | 7 => "7" | 8 => "8" | 9 => "9" | 10 => "a" | 11 => "b"
  | 12 => "c" | 13 => "d" | 14 => "e" | _ => "f"
  end%char.

(** [str.isprintable] on one character of the Latin-1 range. *)
Definition printable (c : ascii) : bool :=
  let n := nat_of_ascii c in
  ((32 <=? n) && (n <? 127) || (161 <=? n) && negb (n =? 173))%nat.

Fixpoint mem_char (c : ascii) (s : string) : bool :=
  match s with
  | EmptyString => false
  | String d rest => Ascii.eqb c d || mem_char c rest
  end.

Definition double_quote : ascii := ascii_of_nat 34.

(** The quote [repr] picks: double quotes only when the text has a single
    quote and no double quote. *)
Definition repr_quote (s : string) : ascii :=
  if mem_char "'"%char s && negb (mem_char double_quote s)
  then double_quote else "'"%char.

Fixpoint repr_body (q : ascii) (s : string) : string :=
  match s with
  | EmptyString => EmptyString
  | String c rest =>
      let n := nat_of_ascii c in
      let tail := repr_body q rest in
      if Ascii.eqb c "\"%char then String "\" (String "\" tail)
      else if Ascii.eqb c q then String "\" (String c tail)
      else if (n =? 10)%nat then String "\" (String "n" tail)
      else if (n =? 13)%nat then String "\" (String "r" tail)
      else if (n =? 9)%nat then String "\" (String "t" tail)
      else if printable c then String c tail
      else String "\" (String "x"
             (String (hex_digit (n / 16)) (String (hex_digit (n mod 16)) tail)))
  end.

Definition repr_str (s : string) : string :=
  let q := repr_quote s in
  String q (repr_body q s ++ String q EmptyString).

Definition str_int (z : Z) : string := NilZero.string_of_int (Z.to_int z).

Definition str_nat (n : nat) : string := NilZero.string_of_uint (Nat.to_uint n).

Fixpoint repr (v : value) : string :=
  match v with
  | VNone => "None"
  | VBool true => "True"
  | VBool false => "False"
  | VInt z => str_int z
  | VStr s => repr_str s
  | VList l => "[" ++ String.concat ", " (map repr l) ++ "]"
  | VDict d =>
      "{" ++ String.concat ", "
               (map (fun kv => match kv with
                               | (k, x) => repr_str k ++ ": " ++ repr x
                               end) d) ++ "}"
  end.

(** [str(v)], which is also what an f-string field renders. *)
Definition str (v : value) : string :=
  match v with
  | VStr s => s
  | _ => repr v
  end.

End Py.

(** ** Dates *)

(** What [dateutil.parser.parse] returns: the wall-clock fields as written
    in the text, and the UTC offset in seconds when the text carries one. *)
Record datetime : Type := mkDatetime {
  year : nat;
  month : nat;
  day : nat;
  hour : nat;
  minute : nat;
  second : nat;
  microsecond : Z;
  utcoffset : option Z
}.

Fixpoint zero_pad (width : nat) (digits : string) : string :=
  match width with
  | O => digits
  | S w =>
      if Nat.ltb (String.length digits) width
      then zero_pad w (String "0" digits)
      else digits
  end.

Definition padded (width n : nat) : string := zero_pad width (Py.str_nat n).

(** [d.strftime('%Y-%m-%dT%H:%M:%SZ')].  The directives print the fields of
    [d] itself, the year on four digits and the others on two; the trailing
    [Z] is a literal of the format. *)
Definition strftime_pinboard (d : datetime) : string :=
  padded 4 (year d) ++ "-" ++ padded 2 (month d) ++ "-" ++ padded 2 (day d)
  ++ "T" ++ padded 2 (hour d) ++ ":" ++ padded 2 (minute d) ++ ":"
  ++ padded 2 (second d) ++ "Z".

(** Days from 1970-01-01 to a civil date of the proleptic Gregorian
    calendar, and the instant a [datetime] denotes, in seconds since the
    epoch.  A datetime without offset is read as UTC. *)
Definition days_from_civil (y m d : Z) : Z :=
  let y' := (if m <=? 2 then y - 1 else y)%Z in
  let era := (y' / 400)%Z in
  let yoe := (y' - era * 400)%Z in
  let mp := ((m + 9) mod 12)%Z in
  let doy := ((153 * mp + 2) / 5 + d - 1)%Z in
  let doe := (yoe * 365 + yoe / 4 - yoe / 100 + doy)%Z in
  (era * 146097 + doe - 719468)%Z.

Definition instant (d : datetime) : Z :=
  (days_from_civil (Z.of_nat (year d)) (Z.of_nat (month d)) (Z.of_nat (day d))
     * 86400
   + Z.of_nat (hour d) * 3600 + Z.of_nat (minute d) * 60 + Z.of_nat (second d)
   - match utcoffset d with Some off => off | None => 0 end)%Z.

(** *** An ISO 8601 reader

    [dateutil] is a third-party library; the development is parametric in
    its parser (field [dateutil_parse] of [env] below).  [Iso.parse] is the
    instance used to run the script on concrete records: it reads the
    extended ISO 8601 form the Reader API sends,
    [YYYY-MM-DD(T| )HH:MM:SS[.f+][Z|+HH:MM|-HH:MM]], on which it returns the
    fields [dateutil] returns, and rejects everything else. *)

Module Iso.

Definition digit (c : ascii) : option nat :=
  let n := nat_of_ascii c in
  if ((48 <=? n) && (n <=? 57))%nat then Some (n - 48) else None.

Fixpoint digits (count acc : nat) (s : string) : option (nat * string) :=
  match count with
  | O => Some (acc, s)
  | S count' =>
      match s with
      | String c rest =>
          match digit c with
          | Some d => digits count' (10 * acc + d) rest
          | None => None
          end
      | EmptyString => None
      end
  end.

Definition expect (c : ascii) (s : string) : option string :=
  match s with
  | String d rest => if Ascii.eqb c d then Some rest else None
  | EmptyString => None
  end.

(** The digits after the decimal point: the first six give the
    microseconds, further ones are dropped. *)
Fixpoint fraction (kept : nat) (acc : Z) (s : string) : Z * string :=
  match s with
  | String c rest =>
      match digit c with
      | Some d =>
          if Nat.ltb kept 6
          then fraction (S kept) (10 * acc + Z.of_nat d)%Z rest
          else fraction kept acc rest
      | None => (acc * 10 ^ Z.of_nat (6 - kept), s)%Z
      end
  | EmptyString => (acc * 10 ^ Z.of_nat (6 - kept), s)%Z
  end.

Definition leap (y : nat) : bool :=
  ((y mod 4 =? 0) && (negb (y mod 100 =? 0) || (y mod 400 =? 0)))%nat.

Definition days_in_month (y m : nat) : nat :=
  match m with
  | 2 => if leap y then 29 else 28
  | 4 | 6 | 9 | 11 => 30
  | _ => 31
  end.

Definition offset (s : string) : option (option Z) :=
  match s with
  | EmptyString => Some None
  | String c rest =>
      if Ascii.eqb c "Z" then
        match rest with EmptyString => Some (Some 0%Z) | _ => None end
      else
        let sign :=
          if Ascii.eqb c "+" then Some 1%Z
          else if Ascii.eqb c "-" then Some (-1)%Z else None in
        match sign with
        | None => None
        | Some sg =>
            match digits 2 0 rest with
            | None => None
            | Some (hh, rest1) =>
                match expect ":" rest1 with
                | None => None
                | Some rest2 =>
                    match digits 2 0 rest2 with
                    | Some (mm, EmptyString) =>
                        if ((hh <? 24) && (mm <? 60))%nat
                        then Some (Some (sg * Z.of_nat (hh * 3600 + mm * 60))%Z)
                        else None
                    | _ => None
                    end
                end
            end
        end
  end.

Definition bind {A B} (o : option A) (k : A -> option B) : option B :=
  match o with
  | Some a => k a
  | None => None
  end.

Definition parse (s : string) : option datetime :=
  bind (digits 4 0 s) (fun '(y, s) =>
  bind (expect "-" s) (fun s =>
  bind (digits 2 0 s) (fun '(mo, s) =>
  bind (expect "-" s) (fun s =>
  bind (digits 2 0 s) (fun '(d, s) =>
  bind (match expect "T" s with Some r => Some r | None => expect " " s end)
       (fun s =>
  bind (digits 2 0 s) (fun '(h, s) =>
  bind (expect ":" s) (fun s =>
  bind (digits 2 0 s) (fun '(mi, s) =>
  bind (expect ":" s) (fun s =>
  bind (digits 2 0 s) (fun '(se, s) =>
  let '(us, s) :=
    match expect "." s with
    | Some r => match r with
                | String c _ => match digit c with
                                | Some _ => fraction 0 0%Z r
                                | None => (0%Z, s)
                                end
                | EmptyString => (0%Z, s)
                end
    | None => (0%Z, s)
    end in
  bind (offset s) (fun off =>
  if ((1 <=? y) && (1 <=? mo) && (mo <=? 12) && (1 <=? d)
      && (d <=? days_in_month y mo) && (h <? 24) && (mi <? 60)
      && (se <? 60))%nat
  then Some (mkDatetime y mo d h mi se us off)
  else None)))))))))))).

End Iso.

(** ** The interpreter state and its monad *)

(** The exceptions the script can meet.  [ConnectionError] stands for
    whatever [requests.get] raises when no response arrives,
    [JSONDecodeError] for what [response.json()] raises on a body that is
    not JSON, [ParserError] for a timestamp [dateutil] rejects. *)
Inductive exn : Type :=
| TypeError
| AttributeError
| KeyError
| ConnectionError
| JSONDecodeError
| ParserError.

(** An HTTP response as the script reads it: the status code, and the
    decoded body ([None] when the body is not JSON). *)
Record response : Type := mkResponse {
  status_code : Z;
  json : option Py.value
}.

(** What the outside can observe of a run, in the order it happens. *)
Inductive event : Type :=
| Print (line : string)
| HttpGet (url : string) (params : list (string * Py.value))
          (headers : list (string * string))
| OpenW
| FileWrite (text : string)
| Sleep (seconds : nat).

(** [lastrun_file] is the content of the file at LAST_RUN_FILE ([None]: no
    such file).  [readwise_replies] scripts the source service: the reply
    each successive request to it will get, [None] for a request that gets
    no response. *)
Record world : Type := mkWorld {
  lastrun_file : option string;
  trace : list event;
  readwise_replies : list (option response)
}.

(** The rest of the environment of a run: the two credentials (the script
    exits at once when either is unset, so a run that gets any further has
    both), the reading of the wall clock [datetime.now().isoformat()], the
    timestamp parser, and the destination service, which answers (or not)
    a request knowing everything that happened up to and including that
    request. *)
Record env : Type := mkEnv {
  READWISE_API_KEY : string;
  PINBOARD_API_TOKEN : string;
  now_isoformat : string;
  dateutil_parse : string -> option datetime;
  pinboard_server : list event -> option response
}.

(** How a computation ends: with a value, with an exception, or [Stuck]
    waiting for a reply the script of the source service does not hold. *)
Inductive result (A : Type) : Type :=
| Ok (a : A)
| Raise (e : exn)
| Stuck.

Arguments Ok {A} a.
Arguments Raise {A} e.
Arguments Stuck {A}.

Definition M (A : Type) : Type := world -> result A * world.

Definition ret {A} (a : A) : M A := fun w => (Ok a, w).

Definition raise {A} (e : exn) : M A := fun w => (Raise e, w).

Definition bind {A B} (m : M A) (k : A -> M B) : M B :=
  fun w =>
    match m w with
    | (Ok a, w') => k a w'
    | (Raise e, w') => (Raise e, w')
    | (Stuck, w') => (Stuck, w')
    end.

Declare Scope py_scope.
Delimit Scope py_scope with py.
Notation "x <- m ;; k" := (bind m (fun x => k))
  (at level 61, m at next level, right associativity) : py_scope.
Notation "m ;; k" := (bind m (fun _ => k))
  (at level 61, right associativity) : py_scope.
Open Scope py_scope.

(** [try: body except: pass].  A bare [except] catches every exception. *)
Definition try_pass (body : M unit) : M unit :=
  fun w =>
    match body w with
    | (Raise _, w') => (Ok tt, w')
    | other => other
    end.

(** [for x in xs: body x]. *)
Fixpoint for_each {A} (xs : list A) (body : A -> M unit) : M unit :=
  match xs with
  | [] => ret tt
  | x :: rest => body x ;; for_each rest body
  end.

Definition emit (e : event) : M unit :=
  fun w =>
    (Ok tt, mkWorld (lastrun_file w) (trace w ++ [e]) (readwise_replies w)).

Definition print (line : string) : M unit := emit (Print line).

(** A computation that touches nothing of the world: it returns or raises. *)
Definition pure {A} (r : result A) : M A := fun w => (r, w).

Definition or_raise {A} (e : exn) (o : option A) : result A :=
  match o with
  | Some a => Ok a
  | None => Raise e
  end.

(** *** Operations on values that can raise *)

(** [key in v]. *)
Definition py_contains (key : string) (v : Py.value) : result bool :=
  match v with
  | Py.VDict d =>
      Ok (match Py.lookup key d with Some _ => true | None => false end)
  | Py.VList l => Ok (existsb (fun x => Py.eq_str x key) l)
  | Py.VStr s =>
      Ok (match index 0 key s with Some _ => true | None => false end)
  | _ => Raise TypeError
  end.

(** [v[key]] with a string key: strings and lists want integer indices. *)
Definition py_getitem (v : Py.value) (key : string) : result Py.value :=
  match v with
  | Py.VDict d => or_raise KeyError (Py.lookup key d)
  | _ => Raise TypeError
  end.

(** [v.get(key, default)]: only a dict has the method. *)
Definition py_get (v : Py.value) (key : string) (default : Py.value)
    : result Py.value :=
  match v with
  | Py.VDict d => Ok (Py.get_default d key default)
  | _ => Raise AttributeError
  end.

(** [v[:n]]: strings and lists slice, nothing else does (a dict refuses
    the slice as a key, the others have no items). *)
Definition py_slice_to (n : nat) (v : Py.value) : result Py.value :=
  match v with
  | Py.VStr s => Ok (Py.VStr (Py.str_prefix n s))
  | Py.VList l => Ok (Py.VList (firstn n l))
  | _ => Raise TypeError
  end.

(** [response.json()]. *)
Definition response_json (r : response) : result Py.value :=
  or_raise JSONDecodeError (json r).

(** ** The script *)

Definition READWISE_API_URL : string := "https://readwise.io/api/v3/list/".

Definition PINBOARD_API_URL : string := "https://api.pinboard.in/v1/posts/add".

Definition ADDITIONAL_TAGS : string := ".from:Reader".

Definition TITLE_MAX : nat := 255.

Definition EXTENDED_MAX : nat := Z.to_nat 65536.

Definition newline : string := String (ascii_of_nat 10) EmptyString.

(** [[tag.replace(' ', '') for tag in tags]]: every element has to be a
    string. *)
Fixpoint strip_tags (tags : list Py.value) : result (list string) :=
  match tags with
  | [] => Ok []
  | Py.VStr tag :: rest =>
      match strip_tags rest with
      | Ok stripped => Ok (Py.remove_spaces tag :: stripped)
      | other => other
      end
  | _ :: _ => Raise AttributeError
  end.

(** The first lines of [add_bookmark_to_pinboard]: the keys of a dict, or
    the value as it is, iterated over, stripped and joined. *)
Definition tags_str (tags : Py.value) : result string :=
  let tags := match tags with
              | Py.VDict d => Py.VList (Py.keys d)
              | _ => tags
              end in
  match Py.iterate tags with
  | None => Raise TypeError
  | Some tag_list =>
      match strip_tags tag_list with
      | Ok stripped => Ok (String.concat " " stripped)
      | Raise e => Raise e
      | Stuck => Stuck
      end
  end.

(** The test that makes [add_bookmark_to_pinboard] return early. *)
Definition filtered_out (category location source_url : Py.value) : bool :=
  Py.eq_str category "highlight" || Py.eq_str location "feed"
  || negb (Py.truthy source_url).

(** The f-string that builds [extended_info]. *)
Definition extended_info (document : list (string * Py.value)) : string :=
  Py.str (Py.get_default document "summary" (Py.VStr "")) ++ newline ++ "by "
  ++ Py.str (Py.get_default document "author" (Py.VStr "")) ++ ", "
  ++ Py.str (Py.get_default document "site_name" (Py.VStr "")).

(** The query parameters of one page request. *)
Definition page_params (next_page_cursor updated_after location : Py.value)
    : list (string * Py.value) :=
  (if Py.truthy next_page_cursor
   then [("pageCursor", next_page_cursor)] else [])
  ++ (if Py.truthy updated_after then [("updatedAfter", updated_after)] else [])
  ++ (if Py.truthy location then [("location", location)] else []).

(** [full_data.extend(v)]. *)
Definition extend (full_data : list Py.value) (v : Py.value)
    : result (list Py.value) :=
  match Py.iterate v with
  | Some items => Ok (full_data ++ items)%list
  | None => Raise TypeError
  end.

(** What one decoded page does to [full_data]: the two lines
    [if 'results' in response.json(): full_data.extend(...)]. *)
Definition add_results (full_data : list Py.value) (body : Py.value)
    : result (list Py.value) :=
  match py_contains "results" body with
  | Ok true =>
      match py_getitem body "results" with
      | Ok results => extend full_data results
      | Raise e => Raise e
      | Stuck => Stuck
      end
  | Ok false => Ok full_data
  | Raise e => Raise e
  | Stuck => Stuck
  end.

Section Script.

Variable E : env.

(** [requests.get] on the source service: the request goes out, and the
    next scripted reply comes back. *)
Definition readwise_get (params : list (string * Py.value)) : M response :=
  fun w =>
    let request :=
      HttpGet READWISE_API_URL params
              [("Authorization", "Token " ++ READWISE_API_KEY E)] in
    match readwise_replies w with
    | [] => (Stuck, w)
    | reply :: rest =>
        let w' := mkWorld (lastrun_file w) (trace w ++ [request]) rest in
        match reply with
        | Some r => (Ok r, w')
        | None => (Raise ConnectionError, w')
        end
    end.

(** [requests.get] on the destination service. *)
Definition pinboard_get (params : list (string * Py.value)) : M response :=
  fun w =>
    let request := HttpGet PINBOARD_API_URL params [] in
    let w' :=
      mkWorld (lastrun_file w) (trace w ++ [request]) (readwise_replies w) in
    match pinboard_server E (trace w') with
    | Some r => (Ok r, w')
    | None => (Raise ConnectionError, w')
    end.

Definition get_last_run_timestamp : M Py.value :=
  fun w =>
    match lastrun_file w with
    | Some timestamp => (Ok (Py.VStr timestamp), w)
    | None => (Ok Py.VNone, w)
    end.

(** [open(LAST_RUN_FILE, 'w')] empties the file before anything is
    written; [file.write] takes a [str] and nothing else; leaving the
    [with] block closes the file either way. *)
Definition set_last_run_timestamp (timestamp : Py.value) : M unit :=
  fun w =>
    let opened := (trace w ++ [OpenW])%list in
    match timestamp with
    | Py.VStr text =>
        (Ok tt, mkWorld (Some text) (opened ++ [FileWrite text])%list
                        (readwise_replies w))
    | _ =>
        (Raise TypeError, mkWorld (Some "") opened (readwise_replies w))
    end.

Definition format_created_at (created_at : Py.value) : result string :=
  match created_at with
  | Py.VStr text =>
      match dateutil_parse E text with
      | Some readwise_datetime => Ok (strftime_pinboard readwise_datetime)
      | None => Raise ParserError
      end
  | _ => Raise TypeError
  end.

(** The [while True] loop of [fetch_reader_document_list_api]; each turn
    uses one unit of [fuel]. *)
Fixpoint fetch_loop (fuel : nat) (updated_after location : Py.value)
    (full_data : list Py.value) (next_page_cursor : Py.value)
    : M (list Py.value) :=
  match fuel with
  | O => fun w => (Stuck, w)
  | S fuel' =>
      let params := page_params next_page_cursor updated_after location in
      print ("Making export API request with params "
             ++ Py.str (Py.VDict params) ++ "...") ;;
      response <- readwise_get params ;;
      body <- pure (response_json response) ;;
      full_data <- pure (add_results full_data body) ;;
      next_page_cursor <- pure (py_get body "nextPageCursor" Py.VNone) ;;
      if negb (Py.truthy next_page_cursor)
      then ret full_data
      else fetch_loop fuel' updated_after location full_data next_page_cursor
  end.

(** Every turn of the loop takes a reply off the script, so one more turn
    than there are replies is all the loop can make. *)
Definition fetch_reader_document_list_api (updated_after location : Py.value)
    : M (list Py.value) :=
  fun w =>
    fetch_loop (S (length (readwise_replies w))) updated_after location
               [] Py.VNone w.

Definition get_new_readwise_documents : M (list Py.value) :=
  last_run_timestamp <- get_last_run_timestamp ;;
  new_data <- fetch_reader_document_list_api last_run_timestamp Py.VNone ;;
  match new_data with
  | _ :: _ =>
      print (Py.str_nat (length new_data)
             ++ " documents returned from Readwise API.") ;;
      set_last_run_timestamp (Py.VStr (now_isoformat E)) ;;
      ret new_data
  | [] =>
      print "Failed to fetch documents from Readwise API." ;;
      ret []
  end.

(** [document.get] raises on anything but a dict; once the first call has
    returned, [document] is known to be one. *)
Definition add_bookmark_to_pinboard (DRY_RUN : bool)
    (title url document tags created_at : Py.value) : M unit :=
  tags_str <- pure (tags_str tags) ;;
  match document with
  | Py.VDict fields =>
      let category := Py.get_default fields "category" Py.VNone in
      let location := Py.get_default fields "location" Py.VNone in
      let source_url := Py.get_default fields "source_url" Py.VNone in
      if filtered_out category location source_url
      then
        print ("Ignoring document: " ++ Py.str title
               ++ " (category: " ++ Py.str category
               ++ ", location: " ++ Py.str location
               ++ ", source_url: " ++ Py.str source_url ++ ")")
      else
        let extended_info := extended_info fields in
        if DRY_RUN then
          print ("Title: " ++ Py.str title) ;;
          print ("URL: " ++ Py.str url) ;;
          print ("Extended: " ++ extended_info) ;;
          print ("Tags: " ++ tags_str) ;;
          dt <- pure (format_created_at created_at) ;;
          print ("dt: " ++ dt) ;;
          print "Adding bookmark to Pinboard (dry run)"
        else
          description <- pure (py_slice_to TITLE_MAX title) ;;
          let extended := Py.str_prefix EXTENDED_MAX extended_info in
          dt <- pure (format_created_at created_at) ;;
          let params :=
            [("auth_token", Py.VStr (PINBOARD_API_TOKEN E));
             ("format", Py.VStr "json");
             ("url", url);
             ("description", description);
             ("extended", Py.VStr extended);
             ("tags", Py.VStr (ADDITIONAL_TAGS ++ " " ++ tags_str));
             ("replace", Py.VStr "no");
             ("dt", Py.VStr dt)] in
          response <- pinboard_get params ;;
          (if Z.eqb (status_code response) 200
           then print ("Bookmark added to Pinboard: " ++ Py.str title)
           else print ("Failed to add bookmark to Pinboard. Status Code: "
                       ++ Py.str_int (status_code response))) ;;
          emit (Sleep 3)
  | _ => raise AttributeError
  end.

(** The body of the [try] in the main loop. *)
Definition process_document (DRY_RUN : bool) (document : Py.value) : M unit :=
  title <- pure (py_get document "title" Py.VNone) ;;
  url <- pure (py_get document "source_url" Py.VNone) ;;
  tags <- pure (py_get document "tags" (Py.VList [])) ;;
  created_at <- pure (py_get document "created_at" Py.VNone) ;;
  add_bookmark_to_pinboard DRY_RUN title url document tags created_at.

(** The per-document loop at the end of the script. *)
Definition submit_all (DRY_RUN : bool) (new_documents : list Py.value)
    : M unit :=
  for_each new_documents
           (fun document => try_pass (process_document DRY_RUN document)).

(** The script, run with the flags [--dry-run] and [--all] as given. *)
Definition main (dry_run all : bool) : M unit :=
  (if all then set_last_run_timestamp Py.VNone else ret tt) ;;
  new_documents <- get_new_readwise_documents ;;
  submit_all dry_run new_documents.

End Script.

(** * Vocabulary of the properties *)

Open Scope list_scope.

(** ** Worlds and traces *)

(** The world after the events [evs] have happened in [w]. *)
Definition log (evs : list event) (w : world) : world :=
  mkWorld (lastrun_file w) (trace w ++ evs) (readwise_replies w).

(** The events a computation adds to the trace when run in [w]. *)
Definition emitted {A} (m : M A) (w : world) : list event :=
  skipn (length (trace w)) (trace (snd (m w))).

(** The requests sent to the destination service among some events. *)
Fixpoint submissions (evs : list event) : list (list (string * Py.value)) :=
  match evs with
  | [] => []
  | HttpGet url params _ :: rest =>
      if String.eqb url PINBOARD_API_URL
      then params :: submissions rest
      else submissions rest
  | _ :: rest => submissions rest
  end.

(** The requests sent to the source service among some events. *)
Fixpoint page_requests (evs : list event) : list (list (string * Py.value)) :=
  match evs with
  | [] => []
  | HttpGet url params _ :: rest =>
      if String.eqb url READWISE_API_URL
      then params :: page_requests rest
      else page_requests rest
  | _ :: rest => page_requests rest
  end.

(** What happened to the lastrun file among some events. *)
Definition file_events (evs : list event) : list event :=
  filter (fun e => match e with OpenW | FileWrite _ => true | _ => false end)
         evs.

(** [w'] comes after [w] without anything having touched the lastrun
    file. *)
Definition file_untouched (w w' : world) : Prop :=
  lastrun_file w' = lastrun_file w
  /\ exists evs, trace w' = trace w ++ evs /\ file_events evs = [].

(** What [get_last_run_timestamp] reads in [w]. *)
Definition watermark (w : world) : Py.value :=
  match lastrun_file w with
  | Some timestamp => Py.VStr timestamp
  | None => Py.VNone
  end.

(** Whether a fetch came back with documents. *)
Definition fetched_some (r : result (list Py.value)) : bool :=
  match r with
  | Ok (_ :: _) => true
  | _ => false
  end.

(** ** Pages *)

(** The documents a response contributes, when its body is a JSON object
    whose "results", if any, can be iterated; and the cursor it names. *)
Definition page_documents (r : response) : option (list Py.value) :=
  match json r with
  | Some (Py.VDict items) =>
      match Py.lookup "results" items with
      | Some results => Py.iterate results
      | None => Some []
      end
  | _ => None
  end.

Definition page_cursor (r : response) : Py.value :=
  match json r with
  | Some (Py.VDict items) => Py.get_default items "nextPageCursor" Py.VNone
  | _ => Py.VNone
  end.

Section Turns.

Variable E : env.
Variables updated_after location : Py.value.

(** What one turn of the fetch loop adds to the trace. *)
Definition turn_events (next_page_cursor : Py.value) : list event :=
  let params := page_params next_page_cursor updated_after location in
  [Print ("Making export API request with params "
          ++ Py.str (Py.VDict params) ++ "...");
   HttpGet READWISE_API_URL params
           [("Authorization", ("Token " ++ READWISE_API_KEY E)%string)]].

(** The trace of the turns that fetch [pages], the first one made with
    cursor [next_page_cursor], each later one with the cursor of the page
    before. *)
Fixpoint turns_events (next_page_cursor : Py.value) (pages : list response)
    : list event :=
  match pages with
  | [] => []
  | page :: rest =>
      turn_events next_page_cursor ++ turns_events (page_cursor page) rest
  end.

(** The cursor in hand after [pages]. *)
Fixpoint cursor_after (next_page_cursor : Py.value) (pages : list response)
    : Py.value :=
  match pages with
  | [] => next_page_cursor
  | page :: rest => cursor_after (page_cursor page) rest
  end.

End Turns.

(** ** The runs of one document *)

Section Runs.

Variable E : env.
Variable fields : list (string * Py.value).

Let title := Py.get_default fields "title" Py.VNone.
Let url := Py.get_default fields "source_url" Py.VNone.
Let tags := Py.get_default fields "tags" (Py.VList []).
Let created_at := Py.get_default fields "created_at" Py.VNone.
Let category := Py.get_default fields "category" Py.VNone.
Let location := Py.get_default fields "location" Py.VNone.

(** The line printed for a document that is filtered out. *)
Definition ignoring_line : string :=
  "Ignoring document: " ++ Py.str title
  ++ " (category: " ++ Py.str category
  ++ ", location: " ++ Py.str location
  ++ ", source_url: " ++ Py.str url ++ ")".

(** The first four lines of a dry run. *)
Definition dry_run_lines (tags_str : string) : list event :=
  [Print ("Title: " ++ Py.str title);
   Print ("URL: " ++ Py.str url);
   Print ("Extended: " ++ extended_info fields);
   Print ("Tags: " ++ tags_str)].

(** The query parameters of a submission, and the request that carries
    them. *)
Definition submission_params (description : Py.value) (tags_str dt : string)
    : list (string * Py.value) :=
  [("auth_token", Py.VStr (PINBOARD_API_TOKEN E));
   ("format", Py.VStr "json");
   ("url", url);
   ("description", description);
   ("extended", Py.VStr (Py.str_prefix EXTENDED_MAX (extended_info fields)));
   ("tags", Py.VStr (ADDITIONAL_TAGS ++ " " ++ tags_str));
   ("replace", Py.VStr "no");
   ("dt", Py.VStr dt)].

Definition submission (description : Py.value) (tags_str dt : string) : event :=
  HttpGet PINBOARD_API_URL (submission_params description tags_str dt) [].

Definition status_line (r : response) : string :=
  if Z.eqb (status_code r) 200
  then "Bookmark added to Pinboard: " ++ Py.str title
  else "Failed to add bookmark to Pinboard. Status Code: "
       ++ Py.str_int (status_code r).

(** All the ways [process_document] can go on a dict, as outcome and events
    added to the trace of the world [w] it starts in. *)
Inductive document_run (DRY_RUN : bool) (w : world)
    : result unit -> list event -> Prop :=
| run_bad_tags (e : exn) :
    tags_str tags = Raise e ->
    document_run DRY_RUN w (Raise e) []
| run_ignored (ts : string) :
    tags_str tags = Ok ts ->
    filtered_out category location url = true ->
    document_run DRY_RUN w (Ok tt) [Print ignoring_line]
| run_dry_bad_date (ts : string) (e : exn) :
    tags_str tags = Ok ts ->
    filtered_out category location url = false ->
    DRY_RUN = true ->
    format_created_at E created_at = Raise e ->
    document_run DRY_RUN w (Raise e) (dry_run_lines ts)
| run_dry (ts dt : string) :
    tags_str tags = Ok ts ->
    filtered_out category location url = false ->
    DRY_RUN = true ->
    format_created_at E created_at = Ok dt ->
    document_run DRY_RUN w (Ok tt)
      (dry_run_lines ts
       ++ [Print ("dt: " ++ dt);
           Print "Adding bookmark to Pinboard (dry run)"])%list
| run_bad_title (ts : string) (e : exn) :
    tags_str tags = Ok ts ->
    filtered_out category location url = false ->
    DRY_RUN = false ->
    py_slice_to TITLE_MAX title = Raise e ->
    document_run DRY_RUN w (Raise e) []
| run_bad_date (ts : string) (description : Py.value) (e : exn) :
    tags_str tags = Ok ts ->
    filtered_out category location url = false ->
    DRY_RUN = false ->
    py_slice_to TITLE_MAX title = Ok description ->
    format_created_at E created_at = Raise e ->
    document_run DRY_RUN w (Raise e) []
| run_no_response (ts dt : string) (description : Py.value) :
    tags_str tags = Ok ts ->
    filtered_out category location url = false ->
    DRY_RUN = false ->
    py_slice_to TITLE_MAX title = Ok description ->
    format_created_at E created_at = Ok dt ->
    pinboard_server E (trace w ++ [submission description ts dt]) = None ->
    document_run DRY_RUN w (Raise ConnectionError)
      [submission description ts dt]
| run_submitted (ts dt : string) (description : Py.value) (r : response) :
    tags_str tags = Ok ts ->
    filtered_out category location url = false ->
    DRY_RUN = false ->
    py_slice_to TITLE_MAX title = Ok description ->
    format_created_at E created_at = Ok dt ->
    pinboard_server E (trace w ++ [submission description ts dt]) = Some r ->
    document_run DRY_RUN w (Ok tt)
      [submission description ts dt; Print (status_line r); Sleep 3].

End Runs.

(** ** More vocabulary *)

(** The pauses taken among some events, in seconds. *)
Fixpoint sleeps (evs : list event) : list nat :=
  match evs with
  | [] => []
  | Sleep seconds :: rest => seconds :: sleeps rest
  | _ :: rest => sleeps rest
  end.

(** What one turn of the fetch loop makes of the reply to its request: the
    documents so far and the cursor for the next turn, or the exception of
    [requests.get], of [response.json()] or of the lines that read the
    body. *)
Definition page_step (full_data : list Py.value) (reply : option response)
    : result (list Py.value * Py.value) :=
  match reply with
  | None => Raise ConnectionError
  | Some response =>
      match response_json response with
      | Ok body =>
          match add_results full_data body with
          | Ok full_data' =>
              match py_get body "nextPageCursor" Py.VNone with
              | Ok next_page_cursor => Ok (full_data', next_page_cursor)
              | Raise e => Raise e
              | Stuck => Stuck
              end
          | Raise e => Raise e
          | Stuck => Stuck
          end
      | Raise e => Raise e
      | Stuck => Stuck
      end
  end.

(** The request [add_bookmark_to_pinboard] sends for a document when the
    run is not a dry run, if it sends one: the tags have to format, the
    document has to pass the filter, the title has to slice and the
    timestamp to parse. *)
Definition planned_submission (E : env) (document : Py.value)
    : option (list (string * Py.value)) :=
  match document with
  | Py.VDict fields =>
      match tags_str (Py.get_default fields "tags" (Py.VList [])) with
      | Ok ts =>
          if filtered_out (Py.get_default fields "category" Py.VNone)
                          (Py.get_default fields "location" Py.VNone)
                          (Py.get_default fields "source_url" Py.VNone)
          then None
          else
            match py_slice_to TITLE_MAX
                              (Py.get_default fields "title" Py.VNone),
                  format_created_at E
                    (Py.get_default fields "created_at" Py.VNone) with
            | Ok description, Ok dt =>
                Some (submission_params E fields description ts dt)
            | _, _ => None
            end
      | _ => None
      end
  | _ => None
  end.

(** The submissions planned for a sequence of documents, in order. *)
Definition planned_submissions (E : env) (documents : list Py.value)
    : list (list (string * Py.value)) :=
  flat_map (fun document =>
              match planned_submission E document with
              | Some params => [params]
              | None => []
              end)
           documents.

Section FetchDone.

Variables updated_after location : Py.value.

(** What a fetch has done when it ends, however it ends: it has added
    events to the trace, among them one request per reply it took off the
    script and nothing for the destination service or the lastrun file;
    the first request was made with the cursor the loop started with, the
    later ones with cursors that are true. *)
Definition fetch_done (next_page_cursor : Py.value) (w w' : world) : Prop :=
  exists evs cursors,
    trace w' = trace w ++ evs
    /\ lastrun_file w' = lastrun_file w
    /\ page_requests evs
       = map (fun cursor => page_params cursor updated_after location) cursors
    /\ length cursors + length (readwise_replies w')
       = length (readwise_replies w)
    /\ match cursors with
       | [] => True
       | first :: later =>
           first = next_page_cursor
           /\ Forall (fun cursor => Py.truthy cursor = true) later
       end
    /\ submissions evs = []
    /\ file_events evs = []
    /\ sleeps evs = [].

End FetchDone.

(** The wall-clock fields of a [datetime] are those of a date and a time
    of day, with a year of four digits. *)
Definition wall_clock_ok (d : datetime) : bool :=
  ((1000 <=? year d) && (year d <? 10 * 1000)
   && (1 <=? month d) && (month d <=? 12)
   && (1 <=? day d) && (day d <=? Iso.days_in_month (year d) (month d))
   && (hour d <? 24) && (minute d <? 60) && (second d <? 60))%nat.

(** [n] printed on [width] digits reads back as [n]. *)
Definition reads_back (width n : nat) : bool :=
  match Iso.digits width 0 (padded width n) with
  | Some (m, EmptyString) =>
      Nat.eqb m n && Nat.eqb (String.length (padded width n)) width
  | _ => false
  end.

(** * The script on concrete records *)

(** An environment to run in: [Iso.parse] for the parser, a destination
    service that answers every request with 200. *)
Definition demo_env : env :=
  mkEnv "readwise-key" "pinboard-token" "2024-01-01T10:00:00.000001"
        Iso.parse (fun _ => Some (mkResponse 200 None)).

(** A first run: no lastrun file, nothing on the trace yet. *)
Definition first_run (replies : list (option response)) : world :=
  mkWorld None [] replies.

Definition article : list (string * Py.value) :=
  [("title", Py.VStr "An article");
   ("source_url", Py.VStr "https://example.org/a");
   ("category", Py.VStr "article");
   ("location", Py.VStr "new");
   ("tags", Py.VDict [("a", Py.VDict []); ("b x", Py.VDict [])]);
   ("summary", Py.VStr "About things");
   ("author", Py.VStr "Someone");
   ("site_name", Py.VStr "Example");
   ("created_at", Py.VStr "2023-05-01T12:00:00+00:00")].

Definition highlight : list (string * Py.value) :=
  [("title", Py.VStr "A highlight");
   ("source_url", Py.VStr "https://example.org/a");
   ("category", Py.VStr "highlight");
   ("tags", Py.VDict [])].

(** The same record as the decoder gives it when the service sends
    [null] for the tags. *)
Definition highlight_null_tags : list (string * Py.value) :=
  [("title", Py.VStr "A highlight");
   ("source_url", Py.VStr "https://example.org/a");
   ("category", Py.VStr "highlight");
   ("tags", Py.VNone)].

Fixpoint repeat_char (c : ascii) (n : nat) : string :=
  match n with
  | O => EmptyString
  | S n' => String c (repeat_char c n')
  end.

(** An article whose title has 300 characters. *)
Definition long_title : string := repeat_char "t" 300.

Definition long_article : list (string * Py.value) :=
  [("title", Py.VStr long_title);
   ("source_url", Py.VStr "https://example.org/long");
   ("category", Py.VStr "article");
   ("location", Py.VStr "new");
   ("created_at", Py.VStr "2023-05-01T12:00:00+00:00")].

(** The mock source of the pagination scenario: two results and the
    cursor "X", then one result and no cursor. *)
Definition page_one : response :=
  mkResponse 200
    (Some (Py.VDict [("results",
                      Py.VList [Py.VDict article; Py.VDict highlight]);
                     ("nextPageCursor", Py.VStr "X")])).

Definition page_two : response :=
  mkResponse 200
    (Some (Py.VDict [("results", Py.VList [Py.VDict long_article]);
                     ("nextPageCursor", Py.VNone)])).


(** A page without documents, and the body of an error response. *)
Definition empty_page : response :=
  mkResponse 200 (Some (Py.VDict [("results", Py.VList [])])).

Definition throttled : response :=
  mkResponse 429
    (Some (Py.VDict [("detail", Py.VStr "Request was throttled.")])).

(** A later run: the lastrun file holds the time of the run before. *)
Definition later_run (replies : list (option response)) : world :=
  mkWorld (Some "2023-01-01T00:00:00") [] replies.

(** The two submissions a run over the two pages makes. *)
Definition article_params : list (string * Py.value) :=
  submission_params demo_env article (Py.VStr "An article") "a bx"
                    "2023-05-01T12:00:00Z".

Definition long_article_params : list (string * Py.value) :=
  submission_params demo_env long_article (Py.VStr (repeat_char "t" 255)) ""
                    "2023-05-01T12:00:00Z".

(** A response whose body is JSON but not an object. *)
Definition list_body : response := mkResponse 200 (Some (Py.VList [])).

(** An article that came without title. *)
Definition untitled : list (string * Py.value) :=
  [("source_url", Py.VStr "https://example.org/untitled");
   ("category", Py.VStr "article");
   ("location", Py.VStr "new");
   ("created_at", Py.VStr "2023-05-01T12:00:00+00:00")].

(** A destination service that refuses every request. *)
Definition refusing_env : env :=
  mkEnv "readwise-key" "pinboard-token" "2024-01-01T10:00:00.000001"
        Iso.parse (fun _ => Some (mkResponse 429 None)).

(** Runs a straight line of [print]s and [emit]s and compares the traces. *)
Ltac run_prints :=
  cbv beta iota zeta delta [bind print emit log];
  cbn [trace lastrun_file readwise_replies app];
  repeat rewrite <- app_assoc;
  reflexivity.


(** * Properties *)

(** ** Worlds and traces *)

Lemma log_nil (w : world) : log [] w = w.
Proof. destruct w; unfold log; simpl; now rewrite app_nil_r. Qed.

Lemma log_log (a b : list event) (w : world) : log b (log a w) = log (a ++ b) w.
Proof. unfold log; simpl; now rewrite app_assoc. Qed.

Lemma skipn_length_app {A} (a b : list A) : skipn (length a) (a ++ b) = b.
Proof. induction a; simpl; auto. Qed.

Lemma emitted_log {A} (m : M A) (w : world) (r : result A) (evs : list event) :
  m w = (r, log evs w) -> emitted m w = evs.
Proof. intros H; unfold emitted; rewrite H; simpl; apply skipn_length_app. Qed.

Lemma emitted_same {A} (m : M A) (w : world) (r : result A) :
  m w = (r, w) -> emitted m w = [].
Proof. intros H; apply (emitted_log m w r); now rewrite log_nil. Qed.

Lemma emit_log (e : event) (w : world) : emit e w = (Ok tt, log [e] w).
Proof. reflexivity. Qed.

Lemma print_log (line : string) (w : world) :
  print line w = (Ok tt, log [Print line] w).
Proof. reflexivity. Qed.

(** ** Pure steps never get stuck *)

Lemma strip_tags_not_stuck (tags : list Py.value) : strip_tags tags <> Stuck.
Proof.
  induction tags as [|tag rest IH]; simpl; [discriminate|].
  destruct tag; try discriminate.
  destruct (strip_tags rest); congruence.
Qed.

Lemma tags_str_not_stuck (tags : Py.value) : tags_str tags <> Stuck.
Proof.
  unfold tags_str.
  destruct (Py.iterate _); [|discriminate].
  destruct (strip_tags l) eqn:H; try discriminate.
  now apply strip_tags_not_stuck in H.
Qed.

Lemma format_created_at_not_stuck (E : env) (v : Py.value) :
  format_created_at E v <> Stuck.
Proof.
  unfold format_created_at; destruct v; try discriminate.
  destruct (dateutil_parse E s); discriminate.
Qed.

Lemma py_slice_to_not_stuck (n : nat) (v : Py.value) : py_slice_to n v <> Stuck.
Proof. destruct v; discriminate. Qed.

(** ** The runs of one document *)

Section RunLemma.

Variable E : env.
Variable fields : list (string * Py.value).

Let title := Py.get_default fields "title" Py.VNone.
Let url := Py.get_default fields "source_url" Py.VNone.
Let tags := Py.get_default fields "tags" (Py.VList []).
Let created_at := Py.get_default fields "created_at" Py.VNone.
Let category := Py.get_default fields "category" Py.VNone.
Let location := Py.get_default fields "location" Py.VNone.

(** [process_document] on a dict is one of these runs. *)
Lemma process_document_run (DRY_RUN : bool) (w : world) :
  exists r evs,
    process_document E DRY_RUN (Py.VDict fields) w = (r, log evs w)
    /\ document_run E fields DRY_RUN w r evs.
Proof.
  cbv beta iota zeta delta
    [process_document add_bookmark_to_pinboard bind pure py_get].
  fold title url tags created_at category location.
  destruct (tags_str tags) as [ts|e|] eqn:Htags.
  - destruct (filtered_out category location url) eqn:Hfilter.
    + exists (Ok tt), [Print (ignoring_line fields)]; split; [reflexivity|].
      now apply run_ignored with ts.
    + destruct DRY_RUN.
      * destruct (format_created_at E created_at) as [dt|e|] eqn:Hdate.
        -- exists (Ok tt),
             (dry_run_lines fields ts
              ++ [Print ("dt: " ++ dt);
                  Print "Adding bookmark to Pinboard (dry run)"])%list.
           split; [|now apply run_dry].
           unfold dry_run_lines; run_prints.
        -- exists (Raise e), (dry_run_lines fields ts).
           split; [|now apply run_dry_bad_date].
           unfold dry_run_lines; run_prints.
        -- now apply format_created_at_not_stuck in Hdate.
      * destruct (py_slice_to TITLE_MAX title) as [description|e|] eqn:Htitle.
        -- destruct (format_created_at E created_at) as [dt|e|] eqn:Hdate.
           ++ cbv beta iota zeta delta [pinboard_get];
                cbn [trace lastrun_file readwise_replies].
              change (HttpGet PINBOARD_API_URL _ [])
                with (submission E fields description ts dt).
              set (request := submission E fields description ts dt).
              destruct (pinboard_server E (trace w ++ [request]))
                as [r|] eqn:Hreply; subst request.
              ** exists (Ok tt),
                   [submission E fields description ts dt;
                    Print (status_line fields r); Sleep 3].
                 split; [|now apply run_submitted].
                 unfold status_line.
                 destruct (status_code r =? 200)%Z; run_prints.
              ** exists (Raise ConnectionError),
                   [submission E fields description ts dt].
                 split; [|now apply run_no_response].
                 reflexivity.
           ++ exists (Raise e), []; split; [now rewrite log_nil|].
              now apply run_bad_date with ts description.
           ++ now apply format_created_at_not_stuck in Hdate.
        -- exists (Raise e), []; split; [now rewrite log_nil|].
           now apply run_bad_title with ts.
        -- now apply py_slice_to_not_stuck in Htitle.
  - exists (Raise e), []; split; [now rewrite log_nil|]. now apply run_bad_tags.
  - now apply tags_str_not_stuck in Htags.
Qed.

End RunLemma.

(** A document that is not a dict stops at the first [document.get]. *)
Lemma process_document_not_dict (E : env) (DRY_RUN : bool) (document : Py.value)
    (w : world) :
  (forall fields, document <> Py.VDict fields) ->
  process_document E DRY_RUN document w = (Raise AttributeError, w).
Proof.
  intros Hnot; destruct document; try reflexivity.
  now destruct (Hnot items).
Qed.

Lemma document_run_not_stuck (E : env) (fields : list (string * Py.value))
    (DRY_RUN : bool) (w : world) (r : result unit) (evs : list event) :
  document_run E fields DRY_RUN w r evs -> r <> Stuck.
Proof. intros H; inversion H; discriminate. Qed.

(** Whatever the document, its processing ends, having only added events
    to the trace. *)
Lemma process_document_ends (E : env) (DRY_RUN : bool) (document : Py.value)
    (w : world) :
  exists r evs,
    process_document E DRY_RUN document w = (r, log evs w) /\ r <> Stuck.
Proof.
  destruct document as [| | | | |fields];
    try (exists (Raise AttributeError), []; rewrite log_nil;
         split; [reflexivity|discriminate]).
  destruct (process_document_run E fields DRY_RUN w)
    as (r & evs & Hrun & Hcase).
  exists r, evs; split; [assumption|].
  now apply document_run_not_stuck in Hcase.
Qed.

(** ** The per-document loop *)

Lemma try_pass_ok (E : env) (DRY_RUN : bool) (document : Py.value) (w : world) :
  try_pass (process_document E DRY_RUN document) w
  = (Ok tt, snd (process_document E DRY_RUN document w)).
Proof.
  destruct (process_document_ends E DRY_RUN document w)
    as (r & evs & Hrun & Hr).
  unfold try_pass; rewrite Hrun; simpl.
  destruct r as [[]| |]; [reflexivity|reflexivity|now destruct Hr].
Qed.

Lemma submit_all_cons (E : env) (DRY_RUN : bool) (document : Py.value)
    (rest : list Py.value) (w : world) :
  submit_all E DRY_RUN (document :: rest) w
  = submit_all E DRY_RUN rest (snd (process_document E DRY_RUN document w)).
Proof.
  unfold submit_all; simpl; unfold bind.
  now rewrite try_pass_ok.
Qed.

Lemma submit_all_returns (E : env) (DRY_RUN : bool)
    (documents : list Py.value) :
  forall w, fst (submit_all E DRY_RUN documents w) = Ok tt.
Proof.
  induction documents as [|document rest IH]; intros w; [reflexivity|].
  rewrite submit_all_cons; apply IH.
Qed.

Lemma submit_all_app (E : env) (DRY_RUN : bool) (before after : list Py.value) :
  forall w,
    submit_all E DRY_RUN (before ++ after) w
    = submit_all E DRY_RUN after (snd (submit_all E DRY_RUN before w)).
Proof.
  induction before as [|document rest IH]; intros w; [reflexivity|].
  simpl; rewrite !submit_all_cons; apply IH.
Qed.

(** C9.  The per-document loop outlives every document: whatever
    processing [document] does, raising included, the documents after it
    are processed from the world it left, and the loop itself returns
    without an exception. *)
Theorem bad_document_does_not_abort_batch (E : env) (DRY_RUN : bool)
    (before after : list Py.value) (document : Py.value) (w : world) :
  let w1 := snd (submit_all E DRY_RUN before w) in
  let w2 := snd (process_document E DRY_RUN document w1) in
  submit_all E DRY_RUN (before ++ document :: after) w
  = submit_all E DRY_RUN after w2
  /\ fst (submit_all E DRY_RUN (before ++ document :: after) w) = Ok tt.
Proof.
  simpl; split.
  - now rewrite submit_all_app, submit_all_cons.
  - apply submit_all_returns.
Qed.

(** ** Filter and transform *)

Lemma substring_length_le (s : string) :
  forall m n, String.length (substring m n s) <= n.
Proof.
  induction s as [|c s IH]; intros m n.
  - destruct m, n; simpl; lia.
  - destruct m as [|m]; simpl.
    + destruct n as [|n]; simpl; [lia|]. specialize (IH 0 n). lia.
    + apply IH.
Qed.

Lemma str_prefix_length (n : nat) (s : string) :
  String.length (Py.str_prefix n s) <= n.
Proof. apply substring_length_le. Qed.

Lemma py_slice_to_length (n : nat) (v sliced : Py.value) :
  py_slice_to n v = Ok sliced ->
  match sliced with
  | Py.VStr s => String.length s <= n
  | Py.VList l => length l <= n
  | _ => False
  end.
Proof.
  destruct v; simpl; intros H; inversion H; subst.
  - apply str_prefix_length.
  - apply firstn_le_length.
Qed.

Lemma submissions_prints (lines : list string) :
  submissions (map Print lines) = [].
Proof. induction lines; simpl; auto. Qed.

(** C3, as the code has it.  For a document whose category is "highlight",
    or whose location is "feed", or whose source URL is empty or absent: no
    request goes to the bookmarking service; when the formatting of its
    tags succeeds, the only thing that happens is the line naming the
    title, category, location and source URL; when it raises, which it does
    before the filter is reached, the exception leaves the function and
    nothing is printed. *)
Theorem filtered_document_is_skipped (E : env) (DRY_RUN : bool)
    (fields : list (string * Py.value)) (w : world) :
  Py.get_default fields "category" Py.VNone = Py.VStr "highlight"
  \/ Py.get_default fields "location" Py.VNone = Py.VStr "feed"
  \/ Py.truthy (Py.get_default fields "source_url" Py.VNone) = false ->
  submissions (emitted (process_document E DRY_RUN (Py.VDict fields)) w) = []
  /\ (forall ts,
        tags_str (Py.get_default fields "tags" (Py.VList [])) = Ok ts ->
        process_document E DRY_RUN (Py.VDict fields) w
        = (Ok tt, log [Print (ignoring_line fields)] w))
  /\ (forall e,
        tags_str (Py.get_default fields "tags" (Py.VList [])) = Raise e ->
        process_document E DRY_RUN (Py.VDict fields) w = (Raise e, w)).
Proof.
  intros Hskip.
  assert (Hfilter : filtered_out (Py.get_default fields "category" Py.VNone)
                      (Py.get_default fields "location" Py.VNone)
                      (Py.get_default fields "source_url" Py.VNone) = true).
  { unfold filtered_out. destruct Hskip as [H|[H|H]]; rewrite H; simpl.
    - reflexivity.
    - now rewrite orb_true_r.
    - apply orb_true_r. }
  destruct (process_document_run E fields DRY_RUN w)
    as (r & evs & Hrun & Hcase).
  rewrite (emitted_log _ _ _ _ Hrun), Hrun.
  inversion Hcase; subst; try congruence.
  - rewrite log_nil; repeat split; [intros ts Hts|intros e' He']; congruence.
  - repeat split; intros; congruence.
Qed.

(** ** Tags *)

Lemma strip_tags_strings (tags : list string) :
  strip_tags (map Py.VStr tags) = Ok (map Py.remove_spaces tags).
Proof.
  induction tags as [|tag rest IH]; [reflexivity|].
  simpl; now rewrite IH.
Qed.

(** The tags of the data model always format: a sequence of tag names, *)
Lemma tags_str_sequence (tags : list string) :
  tags_str (Py.VList (map Py.VStr tags))
  = Ok (String.concat " " (map Py.remove_spaces tags)).
Proof. unfold tags_str; simpl. now rewrite strip_tags_strings. Qed.

(** a mapping from tag names, whose keys are taken in order, *)
Lemma tags_str_mapping (tags : list (string * Py.value)) :
  tags_str (Py.VDict tags)
  = Ok (String.concat " " (map Py.remove_spaces (map fst tags))).
Proof.
  unfold tags_str, Py.keys; simpl.
  now rewrite <- (map_map fst Py.VStr), strip_tags_strings.
Qed.

(** and no tags at all. *)
Lemma tags_str_absent (fields : list (string * Py.value)) :
  Py.lookup "tags" fields = None ->
  tags_str (Py.get_default fields "tags" (Py.VList [])) = Ok "".
Proof. unfold Py.get_default; now intros ->. Qed.

(** Stripping leaves no space in a tag, and a tag without space as it is:
    stripping twice is stripping once. *)
Lemma remove_spaces_idempotent (tag : string) :
  Py.remove_spaces (Py.remove_spaces tag) = Py.remove_spaces tag.
Proof.
  induction tag as [|c rest IH]; [reflexivity|].
  simpl. destruct (Ascii.eqb c " ") eqn:Hc; [assumption|].
  simpl; now rewrite Hc, IH.
Qed.

(** What a run sends to the bookmarking service: nothing, or the one
    submission built from the document. *)
Lemma document_run_submissions (E : env) (fields : list (string * Py.value))
    (DRY_RUN : bool) (w : world) (r : result unit) (evs : list event) :
  document_run E fields DRY_RUN w r evs ->
  submissions evs = []
  \/ exists description ts dt,
       submissions evs = [submission_params E fields description ts dt]
       /\ DRY_RUN = false
       /\ tags_str (Py.get_default fields "tags" (Py.VList [])) = Ok ts
       /\ py_slice_to TITLE_MAX (Py.get_default fields "title" Py.VNone)
          = Ok description
       /\ format_created_at E (Py.get_default fields "created_at" Py.VNone)
          = Ok dt.
Proof.
  intros Hcase; inversion Hcase; subst;
    try (left; reflexivity);
    right; exists description, ts, dt; repeat split; assumption.
Qed.

Lemma process_document_submissions (E : env) (fields : list (string * Py.value))
    (DRY_RUN : bool) (w : world) :
  submissions (emitted (process_document E DRY_RUN (Py.VDict fields)) w) = []
  \/ exists description ts dt,
       submissions (emitted (process_document E DRY_RUN (Py.VDict fields)) w)
       = [submission_params E fields description ts dt]
       /\ DRY_RUN = false
       /\ tags_str (Py.get_default fields "tags" (Py.VList [])) = Ok ts
       /\ py_slice_to TITLE_MAX (Py.get_default fields "title" Py.VNone)
          = Ok description
       /\ format_created_at E (Py.get_default fields "created_at" Py.VNone)
          = Ok dt.
Proof.
  destruct (process_document_run E fields DRY_RUN w)
    as (r & evs & Hrun & Hcase).
  rewrite (emitted_log _ _ _ _ Hrun).
  eapply document_run_submissions; eassumption.
Qed.

(** An eligible document with a title that slices and a timestamp that
    parses is submitted, once, when the run is not a dry run. *)
Lemma eligible_document_submitted (E : env) (fields : list (string * Py.value))
    (w : world) (description : Py.value) (ts dt : string) :
  tags_str (Py.get_default fields "tags" (Py.VList [])) = Ok ts ->
  filtered_out (Py.get_default fields "category" Py.VNone)
               (Py.get_default fields "location" Py.VNone)
               (Py.get_default fields "source_url" Py.VNone) = false ->
  py_slice_to TITLE_MAX (Py.get_default fields "title" Py.VNone)
  = Ok description ->
  format_created_at E (Py.get_default fields "created_at" Py.VNone) = Ok dt ->
  submissions (emitted (process_document E false (Py.VDict fields)) w)
  = [submission_params E fields description ts dt].
Proof.
  intros Htags Hfilter Htitle Hdate.
  destruct (process_document_run E fields false w) as (r & evs & Hrun & Hcase).
  rewrite (emitted_log _ _ _ _ Hrun).
  inversion Hcase; subst; try congruence;
    replace ts0 with ts in * by congruence;
    replace description0 with description in * by congruence;
    replace dt0 with dt in * by congruence;
    reflexivity.
Qed.

(** C7.  For a document whose tags are the mapping with keys "a" and "b x",
    in this order: every submission made for it carries the tags string
    ".from:Reader a bx"; and when the document is eligible, has a title
    that slices and a timestamp that parses, and the run is not a dry run,
    such a submission is made. *)
Theorem submitted_tags_of_mapping (E : env) (DRY_RUN : bool)
    (fields : list (string * Py.value)) (w : world) :
  Py.lookup "tags" fields
  = Some (Py.VDict [("a", Py.VDict []); ("b x", Py.VDict [])]) ->
  (forall params,
      In params
         (submissions
            (emitted (process_document E DRY_RUN (Py.VDict fields)) w)) ->
      Py.lookup "tags" params = Some (Py.VStr ".from:Reader a bx"))
  /\ (DRY_RUN = false ->
      filtered_out (Py.get_default fields "category" Py.VNone)
                   (Py.get_default fields "location" Py.VNone)
                   (Py.get_default fields "source_url" Py.VNone) = false ->
      (exists description,
          py_slice_to TITLE_MAX (Py.get_default fields "title" Py.VNone)
          = Ok description) ->
      (exists dt,
          format_created_at E (Py.get_default fields "created_at" Py.VNone)
          = Ok dt) ->
      exists params,
        submissions (emitted (process_document E DRY_RUN (Py.VDict fields)) w)
        = [params]).
Proof.
  intros Htags.
  assert (Hstr : tags_str (Py.get_default fields "tags" (Py.VList []))
                 = Ok "a bx").
  { unfold Py.get_default; rewrite Htags; reflexivity. }
  split.
  - intros params Hin.
    destruct (process_document_submissions E fields DRY_RUN w)
      as [Hnone|(description & ts & dt & Hsent & _ & Hts & _)].
    + rewrite Hnone in Hin; destruct Hin.
    + rewrite Hsent in Hin; destruct Hin as [<-|[]].
      replace ts with "a bx" by congruence. reflexivity.
  - intros -> Hfilter (description & Htitle) (dt & Hdate).
    eexists; eapply eligible_document_submitted; eassumption.
Qed.

(** C8.  Every submission carries as description the title cut by
    [title[:255]], of at most 255 units, and as extended text the first
    65536 units of the text built from summary, author and site name. *)
Theorem submitted_title_and_extended_are_truncated (E : env) (DRY_RUN : bool)
    (fields : list (string * Py.value)) (w : world)
    (params : list (string * Py.value)) :
  In params
     (submissions (emitted (process_document E DRY_RUN (Py.VDict fields)) w)) ->
  exists description extended,
    Py.lookup "description" params = Some description
    /\ py_slice_to 255 (Py.get_default fields "title" Py.VNone) = Ok description
    /\ match description with
       | Py.VStr s => String.length s <= 255
       | Py.VList l => length l <= 255
       | _ => False
       end
    /\ Py.lookup "extended" params = Some (Py.VStr extended)
    /\ extended = substring 0 (Z.to_nat 65536) (extended_info fields)
    /\ (Z.of_nat (String.length extended) <= 65536)%Z.
Proof.
  intros Hin.
  destruct (process_document_submissions E fields DRY_RUN w)
    as [Hnone|(description & ts & dt & Hsent & _ & _ & Htitle & _)].
  - rewrite Hnone in Hin; destruct Hin.
  - rewrite Hsent in Hin; destruct Hin as [<-|[]].
    exists description, (Py.str_prefix EXTENDED_MAX (extended_info fields)).
    repeat split; try assumption.
    + now apply (py_slice_to_length 255) in Htitle.
    + pose proof (str_prefix_length EXTENDED_MAX (extended_info fields))
        as Hlen.
      unfold EXTENDED_MAX in Hlen at 2. lia.
Qed.

(** C10.  In a dry run, an eligible document whose tags format has its
    whole title and its whole extended text printed, as the first and third
    lines, and nothing is sent. *)
Theorem dry_run_prints_untruncated (E : env) (fields : list (string * Py.value))
    (w : world) (ts : string) :
  tags_str (Py.get_default fields "tags" (Py.VList [])) = Ok ts ->
  filtered_out (Py.get_default fields "category" Py.VNone)
               (Py.get_default fields "location" Py.VNone)
               (Py.get_default fields "source_url" Py.VNone) = false ->
  exists rest,
    emitted (process_document E true (Py.VDict fields)) w
    = Print ("Title: " ++ Py.str (Py.get_default fields "title" Py.VNone))
      :: Print ("URL: " ++ Py.str (Py.get_default fields "source_url" Py.VNone))
      :: Print ("Extended: "
                ++ Py.str (Py.get_default fields "summary" (Py.VStr ""))
                ++ newline ++ "by "
                ++ Py.str (Py.get_default fields "author" (Py.VStr ""))
                ++ ", "
                ++ Py.str (Py.get_default fields "site_name" (Py.VStr "")))
      :: Print ("Tags: " ++ ts) :: rest
    /\ submissions (emitted (process_document E true (Py.VDict fields)) w) = [].
Proof.
  intros Htags Hfilter.
  destruct (process_document_run E fields true w) as (r & evs & Hrun & Hcase).
  rewrite (emitted_log _ _ _ _ Hrun).
  inversion Hcase; subst; try congruence;
    replace ts0 with ts in * by congruence.
  - exists []; split; reflexivity.
  - eexists; split; reflexivity.
Qed.

(** ** Pagination *)

Section Pagination.

Variable E : env.
Variables updated_after location : Py.value.

Lemma add_results_page (full_data documents : list Py.value) (r : response)
    (body : Py.value) :
  json r = Some body ->
  page_documents r = Some documents ->
  add_results full_data body = Ok (full_data ++ documents)%list
  /\ py_get body "nextPageCursor" Py.VNone = Ok (page_cursor r).
Proof.
  unfold page_documents, page_cursor, add_results; intros ->.
  destruct body as [| | | | |items]; try discriminate; simpl.
  destruct (Py.lookup "results" items) as [results|]; simpl.
  - unfold extend; intros ->; auto.
  - intros [= <-]; now rewrite app_nil_r.
Qed.

(** One turn on a page that decodes. *)
Lemma fetch_loop_turn (fuel : nat) (full_data documents : list Py.value)
    (next_page_cursor : Py.value) (page : response)
    (file : option string) (t : list event) (rest : list (option response)) :
  page_documents page = Some documents ->
  fetch_loop E (S fuel) updated_after location full_data next_page_cursor
             (mkWorld file t (Some page :: rest))
  = if Py.truthy (page_cursor page)
    then fetch_loop E fuel updated_after location (full_data ++ documents)
                    (page_cursor page)
                    (mkWorld file
                       (t ++ turn_events E updated_after location
                                         next_page_cursor)
                       rest)
    else (Ok (full_data ++ documents)%list,
          mkWorld file
            (t ++ turn_events E updated_after location next_page_cursor) rest).
Proof.
  intros Hpage.
  assert (Hbody : exists body, json page = Some body).
  { unfold page_documents in Hpage.
    destruct (json page); [eauto|discriminate]. }
  destruct Hbody as (body & Hbody).
  destruct (add_results_page full_data documents page body Hbody Hpage)
    as (Hadd & Hcursor).
  cbn [fetch_loop].
  cbv beta iota zeta delta
    [bind print emit readwise_get pure ret response_json or_raise].
  cbn [trace lastrun_file readwise_replies].
  rewrite Hbody, Hadd, Hcursor.
  unfold turn_events; rewrite <- app_assoc; cbn [app].
  destruct (Py.truthy (page_cursor page)); reflexivity.
Qed.

(** The turns over a run of pages that each name a next page. *)
Lemma fetch_loop_pages (pages : list response) :
  forall (per_page : list (list Py.value)) (fuel : nat)
         (full_data : list Py.value) (next_page_cursor : Py.value)
         (file : option string) (t : list event)
         (rest : list (option response)),
    Forall2 (fun page documents => page_documents page = Some documents)
            pages per_page ->
    Forall (fun page => Py.truthy (page_cursor page) = true) pages ->
    fetch_loop E (length pages + fuel) updated_after location full_data
               next_page_cursor (mkWorld file t (map Some pages ++ rest))
    = fetch_loop E fuel updated_after location (full_data ++ concat per_page)
                 (cursor_after next_page_cursor pages)
                 (mkWorld file
                    (t ++ turns_events E updated_after location
                                       next_page_cursor pages)
                    rest).
Proof.
  induction pages as [|page pages IH];
    intros per_page fuel full_data cursor file t rest Hdocs Hmore.
  - inversion Hdocs; subst; simpl. now rewrite !app_nil_r.
  - inversion Hdocs as [|? documents ? others Hpage Hrest]; subst.
    inversion Hmore as [|? ? Hcursor Hmore']; subst.
    cbn [length map app Nat.add].
    rewrite (fetch_loop_turn _ _ documents _ _ _ _ _ Hpage), Hcursor.
    rewrite (IH others _ _ _ _ _ _ Hrest Hmore').
    cbn [concat turns_events cursor_after].
    now rewrite !app_assoc.
Qed.

Lemma page_requests_app (a b : list event) :
  page_requests (a ++ b) = page_requests a ++ page_requests b.
Proof.
  induction a as [|e a IH]; [reflexivity|].
  destruct e; simpl; auto.
  destruct (String.eqb url READWISE_API_URL); simpl; now rewrite IH.
Qed.

End Pagination.

Section Fetch.

Variable E : env.
Variables updated_after location : Py.value.

Lemma turns_events_app (a b : list response) :
  forall next_page_cursor,
    turns_events E updated_after location next_page_cursor (a ++ b)
    = turns_events E updated_after location next_page_cursor a
      ++ turns_events E updated_after location
                      (cursor_after next_page_cursor a) b.
Proof.
  induction a as [|page a IH]; intros cursor; [reflexivity|].
  cbn [app turns_events cursor_after]. now rewrite IH, app_assoc.
Qed.

(** One request per page, each carrying the cursor of the page before. *)
Lemma page_requests_pages (pages : list response) (last : response) :
  forall next_page_cursor,
    page_requests
      (turns_events E updated_after location next_page_cursor (pages ++ [last]))
    = map (fun cursor => page_params cursor updated_after location)
          (next_page_cursor :: map page_cursor pages).
Proof.
  induction pages as [|page pages IH]; intros cursor; [reflexivity|].
  cbn [app turns_events map]. rewrite page_requests_app, IH. reflexivity.
Qed.

(** A turn whose request gets no response, or a body that is not JSON. *)
Lemma fetch_loop_turn_failed (fuel : nat) (full_data : list Py.value)
    (next_page_cursor : Py.value) (failed : option response)
    (file : option string) (t : list event) (rest : list (option response)) :
  match failed with Some r => json r = None | None => True end ->
  fetch_loop E (S fuel) updated_after location full_data next_page_cursor
             (mkWorld file t (failed :: rest))
  = (Raise (match failed with
            | Some _ => JSONDecodeError
            | None => ConnectionError
            end),
     mkWorld file
       (t ++ turn_events E updated_after location next_page_cursor) rest).
Proof.
  intros Hfailed.
  cbn [fetch_loop].
  cbv beta iota zeta delta
    [bind print emit readwise_get pure ret response_json or_raise].
  cbn [trace lastrun_file readwise_replies].
  unfold turn_events; rewrite <- app_assoc; cbn [app].
  destruct failed as [r|]; [now rewrite Hfailed|reflexivity].
Qed.

(** C6.  When the source service answers with the pages [pages], each
    naming a next page, and then with [last], which names none, the fetch
    returns the documents of all the pages, page after page, having sent
    one request per page: the first without cursor, each later one with the
    cursor the page before it named. *)
Theorem fetch_accumulates_pages (pages : list response) (last : response)
    (per_page : list (list Py.value)) (rest : list (option response))
    (w : world) :
  readwise_replies w = map Some (pages ++ [last]) ++ rest ->
  Forall2 (fun page documents => page_documents page = Some documents)
          (pages ++ [last]) per_page ->
  Forall (fun page => Py.truthy (page_cursor page) = true) pages ->
  Py.truthy (page_cursor last) = false ->
  exists evs,
    fetch_reader_document_list_api E updated_after location w
    = (Ok (concat per_page), mkWorld (lastrun_file w) (trace w ++ evs) rest)
    /\ page_requests evs
       = map (fun cursor => page_params cursor updated_after location)
             (Py.VNone :: map page_cursor pages)
    /\ length (page_requests evs) = length pages + 1.
Proof.
  intros Hreplies Hdocs Hmore Hlast.
  exists (turns_events E updated_after location Py.VNone (pages ++ [last])).
  split; [|split].
  - apply Forall2_app_inv_l in Hdocs
      as (before & final & Hbefore & Hfinal & ->).
    inversion Hfinal as [|? documents ? ? Hpage Hnil]; subst.
    inversion Hnil; subst.
    unfold fetch_reader_document_list_api.
    destruct w as [file t replies];
      cbn [readwise_replies lastrun_file trace] in *.
    subst replies.
    rewrite map_app, <- app_assoc; cbn [map app].
    rewrite length_app, length_map; cbn [length].
    replace (S (length pages + S (length rest)))
      with (length pages + S (S (length rest))) by lia.
    rewrite (fetch_loop_pages E updated_after location pages before _ _ _ _ _ _
               Hbefore Hmore).
    rewrite (fetch_loop_turn E updated_after location _ _ documents
               _ _ _ _ _ Hpage).
    rewrite Hlast, turns_events_app, concat_app; cbn [concat turns_events].
    now rewrite !app_nil_r, <- !app_assoc.
  - apply page_requests_pages.
  - rewrite page_requests_pages; cbn [map length]. rewrite !length_map. lia.
Qed.

(** C4, as the code has it.  When, after pages that each named a next
    page, a request gets no response or a body that is not JSON, the fetch
    raises the error of that request to its caller: the documents of the
    pages before are not returned.  The lastrun file is as it was. *)
Theorem failed_page_request_raises (pages : list response)
    (failed : option response) (per_page : list (list Py.value))
    (rest : list (option response)) (w : world) :
  readwise_replies w = map Some pages ++ failed :: rest ->
  Forall2 (fun page documents => page_documents page = Some documents)
          pages per_page ->
  Forall (fun page => Py.truthy (page_cursor page) = true) pages ->
  match failed with Some r => json r = None | None => True end ->
  exists w',
    fetch_reader_document_list_api E updated_after location w
    = (Raise (match failed with
              | Some _ => JSONDecodeError
              | None => ConnectionError
              end), w')
    /\ lastrun_file w' = lastrun_file w.
Proof.
  intros Hreplies Hdocs Hmore Hfailed.
  unfold fetch_reader_document_list_api.
  destruct w as [file t replies];
    cbn [readwise_replies lastrun_file trace] in *.
  subst replies.
  rewrite length_app, length_map; cbn [length].
  replace (S (length pages + S (length rest)))
    with (length pages + S (S (length rest))) by lia.
  rewrite (fetch_loop_pages E updated_after location pages per_page _ _ _ _ _ _
             Hdocs Hmore).
  rewrite (fetch_loop_turn_failed _ _ _ _ _ _ _ Hfailed).
  eexists; split; reflexivity.
Qed.

End Fetch.

(** The fuel [fetch_reader_document_list_api] gives the loop is enough:
    any amount above the number of scripted replies gives the same run, so
    the loop never ends for want of fuel. *)
Lemma fetch_loop_fuel (E : env) (updated_after location : Py.value) (n : nat) :
  forall m full_data next_page_cursor w,
    length (readwise_replies w) < n ->
    length (readwise_replies w) < m ->
    fetch_loop E n updated_after location full_data next_page_cursor w
    = fetch_loop E m updated_after location full_data next_page_cursor w.
Proof.
  induction n as [|n IH]; intros m full_data cursor w Hn Hm; [lia|].
  destruct m as [|m]; [lia|].
  destruct w as [file t replies]; cbn [readwise_replies] in *.
  destruct replies as [|reply rest]; [reflexivity|].
  destruct reply as [page|].
  - destruct (page_documents page) as [documents|] eqn:Hpage.
    + rewrite !(fetch_loop_turn E updated_after location _ _ documents
                  _ _ _ _ _ Hpage).
      destruct (Py.truthy (page_cursor page)); [|reflexivity].
      apply IH; cbn [readwise_replies length] in *; lia.
    + cbn [fetch_loop].
      cbv beta iota zeta delta
        [bind print emit readwise_get pure ret response_json or_raise].
      cbn [trace lastrun_file readwise_replies].
      destruct (json page) as [body|] eqn:Hbody; [|reflexivity].
      destruct (add_results full_data body) as [data| |] eqn:Hadd;
        try reflexivity.
      destruct (py_get body "nextPageCursor" Py.VNone)
        as [next| |] eqn:Hnext; try reflexivity.
      exfalso.
      unfold page_documents in Hpage; rewrite Hbody in Hpage.
      destruct body; try discriminate.
      unfold add_results, py_contains, py_getitem, or_raise, extend in Hadd.
      destruct (Py.lookup "results" items); [|discriminate].
      now rewrite Hpage in Hadd.
  - now rewrite !(fetch_loop_turn_failed E updated_after location _ _ _ None
                    _ _ _ I).
Qed.

(** ** The watermark *)

Lemma file_untouched_refl (w : world) : file_untouched w w.
Proof. split; [reflexivity|]. exists []; now rewrite app_nil_r. Qed.

Lemma file_untouched_trans (w1 w2 w3 : world) :
  file_untouched w1 w2 -> file_untouched w2 w3 -> file_untouched w1 w3.
Proof.
  intros (Hfile1 & evs1 & Htrace1 & Hquiet1)
         (Hfile2 & evs2 & Htrace2 & Hquiet2).
  split; [congruence|].
  exists (evs1 ++ evs2); split.
  - now rewrite Htrace2, Htrace1, app_assoc.
  - unfold file_events in *. now rewrite filter_app, Hquiet1, Hquiet2.
Qed.

Lemma file_untouched_turn (E : env) (updated_after location cursor : Py.value)
    (w : world) (rest : list (option response)) :
  file_untouched w
    (mkWorld (lastrun_file w)
             (trace w ++ turn_events E updated_after location cursor) rest).
Proof. split; [reflexivity|]. eexists; split; reflexivity. Qed.

(** The fetch never touches the lastrun file. *)
Lemma fetch_loop_file_untouched (E : env) (updated_after location : Py.value)
    (fuel : nat) :
  forall full_data next_page_cursor w,
    file_untouched w
      (snd (fetch_loop E fuel updated_after location full_data
                       next_page_cursor w)).
Proof.
  induction fuel as [|fuel IH]; intros full_data cursor w.
  - apply file_untouched_refl.
  - destruct w as [file t replies].
    destruct replies as [|reply rest].
    + cbn [fetch_loop].
      cbv beta iota zeta delta [bind print emit readwise_get].
      cbn [trace lastrun_file readwise_replies snd].
      split; [reflexivity|]. eexists; split; reflexivity.
    + pose proof (file_untouched_turn E updated_after location cursor
                    (mkWorld file t (reply :: rest)) rest) as Hturn.
      cbn [trace lastrun_file] in Hturn.
      destruct reply as [page|].
      * destruct (page_documents page) as [documents|] eqn:Hpage.
        -- rewrite (fetch_loop_turn E updated_after location _ _ documents
                      _ _ _ _ _ Hpage).
           destruct (Py.truthy (page_cursor page)); [|exact Hturn].
           eapply file_untouched_trans; [exact Hturn|apply IH].
        -- cbn [fetch_loop].
           cbv beta iota zeta delta
             [bind print emit readwise_get pure ret response_json or_raise].
           cbn [trace lastrun_file readwise_replies].
           unfold turn_events in Hturn; cbv zeta in Hturn.
           rewrite <- app_assoc; cbn [app].
           destruct (json page) as [body|] eqn:Hbody; [|exact Hturn].
           destruct (add_results full_data body) as [data| |] eqn:Hadd;
             try exact Hturn.
           destruct (py_get body "nextPageCursor" Py.VNone)
             as [next| |] eqn:Hnext; try exact Hturn.
           exfalso.
           unfold page_documents in Hpage; rewrite Hbody in Hpage.
           destruct body; try discriminate.
           unfold add_results, py_contains, py_getitem, or_raise, extend
             in Hadd.
           destruct (Py.lookup "results" items); [|discriminate].
           now rewrite Hpage in Hadd.
      * rewrite (fetch_loop_turn_failed E updated_after location _ _ _ None
                   _ _ _ I).
        exact Hturn.
Qed.

Lemma file_events_emitted {A} (m : M A) (w : world) (evs : list event) :
  trace (snd (m w)) = trace w ++ evs ->
  emitted m w = evs.
Proof. intros H; unfold emitted; rewrite H; apply skipn_length_app. Qed.

Lemma get_last_run_timestamp_reads (w : world) :
  get_last_run_timestamp w = (Ok (watermark w), w).
Proof.
  unfold get_last_run_timestamp, watermark; now destruct (lastrun_file w).
Qed.

(** [get_new_readwise_documents], by the outcome of its fetch. *)
Lemma get_new_readwise_documents_run (E : env) (w : world) :
  get_new_readwise_documents E w
  = match fetch_reader_document_list_api E (watermark w) Py.VNone w with
    | (Ok [], w') =>
        (Ok [], log [Print "Failed to fetch documents from Readwise API."] w')
    | (Ok (d :: ds), w') =>
        (Ok (d :: ds),
         mkWorld (Some (now_isoformat E))
                 (trace w'
                  ++ [Print (Py.str_nat (length (d :: ds))
                             ++ " documents returned from Readwise API."
                            )%string;
                      OpenW; FileWrite (now_isoformat E)])
                 (readwise_replies w'))
    | (Raise e, w') => (Raise e, w')
    | (Stuck, w') => (Stuck, w')
    end.
Proof.
  unfold get_new_readwise_documents at 1, bind at 1.
  rewrite get_last_run_timestamp_reads.
  unfold bind at 1.
  destruct (fetch_reader_document_list_api E (watermark w) Py.VNone w)
    as [[[|d ds]| |] w']; try reflexivity.
  cbv beta iota zeta delta [bind print emit set_last_run_timestamp ret log].
  cbn [trace lastrun_file readwise_replies].
  now rewrite <- !app_assoc.
Qed.

(** C1.  [get_new_readwise_documents] writes the lastrun file, with the
    reading of the clock, exactly when the fetch returns a sequence that is
    not empty.  When the fetch returns the empty sequence, or raises, the
    file and what the next run will read from it are as before. *)
Theorem watermark_written_iff_documents_fetched (E : env) (w : world) :
  let fetched :=
    fst (fetch_reader_document_list_api E (watermark w) Py.VNone w) in
  let after := snd (get_new_readwise_documents E w) in
  lastrun_file after
  = (if fetched_some fetched then Some (now_isoformat E) else lastrun_file w)
  /\ file_events (emitted (get_new_readwise_documents E) w)
     = (if fetched_some fetched
        then [OpenW; FileWrite (now_isoformat E)] else [])
  /\ watermark after
     = (if fetched_some fetched
        then Py.VStr (now_isoformat E) else watermark w).
Proof.
  cbv zeta.
  pose proof (fetch_loop_file_untouched E (watermark w) Py.VNone
                (S (length (readwise_replies w))) [] Py.VNone w) as Hquiet.
  fold (fetch_reader_document_list_api E (watermark w) Py.VNone w) in Hquiet.
  pose proof (get_new_readwise_documents_run E w) as Hrun.
  destruct (fetch_reader_document_list_api E (watermark w) Py.VNone w)
    as [fetched w'] eqn:Hfetch.
  cbn [fst snd] in *.
  destruct Hquiet as (Hfile & evs & Htrace & Hevs).
  assert (Hsame : watermark w' = watermark w)
    by (unfold watermark; now rewrite Hfile).
  destruct fetched as [[|d ds]| |]; cbn [fetched_some].
  - rewrite (file_events_emitted _ _
               (evs ++ [Print "Failed to fetch documents from Readwise API."])).
    + rewrite Hrun; cbn [snd]. repeat split; try assumption.
      unfold file_events in *; now rewrite filter_app, Hevs.
    + rewrite Hrun; cbn [snd log trace]. now rewrite Htrace, app_assoc.
  - rewrite (file_events_emitted _ _
               (evs ++ [Print (Py.str_nat (length (d :: ds))
                               ++ " documents returned from Readwise API."
                            )%string;
                        OpenW; FileWrite (now_isoformat E)])).
    + rewrite Hrun; cbn [snd]. repeat split.
      unfold file_events in *; now rewrite filter_app, Hevs.
    + rewrite Hrun; cbn [snd trace]. now rewrite Htrace, app_assoc.
  - rewrite (file_events_emitted _ _ evs) by now rewrite Hrun.
    rewrite Hrun; cbn [snd]. repeat split; assumption.
  - rewrite (file_events_emitted _ _ evs) by now rewrite Hrun.
    rewrite Hrun; cbn [snd]. repeat split; assumption.
Qed.

(** C2, what the code does.  With [--all], [set_last_run_timestamp(None)]
    opens the lastrun file for writing, which empties it, and then
    [file.write(None)] raises TypeError.  Nothing catches it: the run ends
    there, before the watermark is read and before any request is sent. *)
Theorem all_flag_stops_before_fetch (E : env) (dry_run : bool) (w : world) :
  main E dry_run true w
  = (Raise TypeError,
     mkWorld (Some "") (trace w ++ [OpenW]) (readwise_replies w))
  /\ page_requests (emitted (main E dry_run true) w) = [].
Proof.
  assert (Hmain : main E dry_run true w
                  = (Raise TypeError,
                     mkWorld (Some "") (trace w ++ [OpenW])
                             (readwise_replies w)))
    by reflexivity.
  split; [exact Hmain|].
  rewrite (file_events_emitted _ _ [OpenW]); [reflexivity|].
  now rewrite Hmain.
Qed.

(** ** Timestamps *)

(** The format reads the wall-clock fields only. *)
Lemma strftime_pinboard_offset_blind (d : datetime) (offset : option Z) :
  strftime_pinboard
    (mkDatetime (year d) (month d) (day d) (hour d) (minute d) (second d)
                (microsecond d) offset)
  = strftime_pinboard d.
Proof. reflexivity. Qed.

(** C5, what the code does.  [strftime] prints the wall-clock fields of the
    parsed timestamp and appends the letter Z, whatever the offset: for
    12:00:00 at +02:00, which is 10:00:00 UTC, the result reads
    12:00:00Z, an instant two hours later than the one given. *)
Theorem format_created_at_keeps_wall_clock (E : env) :
  dateutil_parse E "2023-05-01T12:00:00+02:00"
  = Some (mkDatetime 2023 5 1 12 0 0 0 (Some 7200%Z)) ->
  format_created_at E (Py.VStr "2023-05-01T12:00:00+02:00")
  = Ok "2023-05-01T12:00:00Z"
  /\ instant (mkDatetime 2023 5 1 12 0 0 0 (Some 7200%Z)) = 1682935200%Z
  /\ instant (mkDatetime 2023 5 1 12 0 0 0 (Some 0%Z)) = 1682942400%Z.
Proof.
  intros Hparse. unfold format_created_at. rewrite Hparse.
  repeat split; reflexivity.
Qed.

(** * Further properties *)

(** ** The fetch, turn by turn *)

Section Turn.

Variable E : env.
Variables updated_after location : Py.value.

(** A turn of the loop, by what [page_step] makes of the reply. *)
Lemma fetch_loop_unfold (fuel : nat) (full_data : list Py.value)
    (next_page_cursor : Py.value) (reply : option response)
    (file : option string) (t : list event) (rest : list (option response)) :
  fetch_loop E (S fuel) updated_after location full_data next_page_cursor
             (mkWorld file t (reply :: rest))
  = let w' :=
      mkWorld file
        (t ++ turn_events E updated_after location next_page_cursor) rest in
    match page_step full_data reply with
    | Ok (full_data', next) =>
        if Py.truthy next
        then fetch_loop E fuel updated_after location full_data' next w'
        else (Ok full_data', w')
    | Raise e => (Raise e, w')
    | Stuck => (Stuck, w')
    end.
Proof.
  cbn [fetch_loop].
  cbv beta iota zeta delta
    [bind print emit readwise_get pure ret page_step].
  cbn [trace lastrun_file readwise_replies].
  unfold turn_events; rewrite <- app_assoc; cbn [app].
  destruct reply as [response|]; [|reflexivity].
  destruct (response_json response) as [body| |]; try reflexivity.
  destruct (add_results full_data body) as [data| |]; try reflexivity.
  destruct (py_get body "nextPageCursor" Py.VNone) as [next| |];
    try reflexivity.
  destruct (Py.truthy next); reflexivity.
Qed.

(** A turn with no reply left. *)
Lemma fetch_loop_out_of_replies (fuel : nat) (full_data : list Py.value)
    (next_page_cursor : Py.value) (file : option string) (t : list event) :
  exists line,
    fetch_loop E (S fuel) updated_after location full_data next_page_cursor
               (mkWorld file t [])
    = (Stuck, mkWorld file (t ++ [Print line]) []).
Proof. eexists; reflexivity. Qed.

End Turn.

Lemma submissions_app (a b : list event) :
  submissions (a ++ b) = submissions a ++ submissions b.
Proof.
  induction a as [|e a IH]; [reflexivity|].
  destruct e; simpl; auto.
  destruct (String.eqb url PINBOARD_API_URL); simpl; now rewrite IH.
Qed.

Lemma sleeps_app (a b : list event) : sleeps (a ++ b) = sleeps a ++ sleeps b.
Proof.
  induction a as [|e a IH]; [reflexivity|].
  destruct e; simpl; auto. now rewrite IH.
Qed.

Lemma file_events_app (a b : list event) :
  file_events (a ++ b) = file_events a ++ file_events b.
Proof. apply filter_app. Qed.

Section FetchInvariant.

Variable E : env.
Variables updated_after location : Py.value.

Lemma fetch_loop_done (fuel : nat) :
  forall full_data next_page_cursor w,
    fetch_done updated_after location next_page_cursor w
      (snd (fetch_loop E fuel updated_after location full_data
                       next_page_cursor w)).
Proof.
  induction fuel as [|fuel IH]; intros full_data cursor w.
  - unfold fetch_done; exists [], []; cbn. rewrite app_nil_r.
    repeat split; reflexivity.
  - destruct w as [file t replies].
    destruct replies as [|reply rest].
    + destruct (fetch_loop_out_of_replies E updated_after location fuel
                  full_data cursor file t) as (line & ->).
      unfold fetch_done; exists [Print line], []; cbn.
      repeat split; reflexivity.
    + rewrite fetch_loop_unfold; cbv zeta.
      assert (Hturn : fetch_done updated_after location cursor
                        (mkWorld file t (reply :: rest))
                        (mkWorld file
                           (t ++ turn_events E updated_after location cursor)
                           rest)).
      { unfold fetch_done.
        exists (turn_events E updated_after location cursor), [cursor]; cbn.
        repeat split; constructor. }
      destruct (page_step full_data reply) as [[data next]| |];
        try exact Hturn.
      destruct (Py.truthy next) eqn:Hnext; [|exact Hturn].
      specialize (IH data next
                     (mkWorld file
                        (t ++ turn_events E updated_after location cursor)
                        rest)).
      unfold fetch_done in IH |- *.
      destruct IH as (evs & cursors & Htrace & Hfile & Hrequests & Hcount
                      & Hcursors & Hsub & Hfiles & Hsleeps).
      cbn [trace lastrun_file readwise_replies] in *.
      exists (turn_events E updated_after location cursor ++ evs),
             (cursor :: cursors).
      repeat split.
      * now rewrite Htrace, app_assoc.
      * assumption.
      * rewrite page_requests_app, Hrequests. reflexivity.
      * cbn [length]; lia.
      * destruct cursors as [|first later]; [constructor|].
        destruct Hcursors as (-> & Hlater). now constructor.
      * rewrite submissions_app, Hsub. reflexivity.
      * rewrite file_events_app, Hfiles. reflexivity.
      * rewrite sleeps_app, Hsleeps. reflexivity.
Qed.

End FetchInvariant.

(** ** What a fetch sends *)

Lemma lookup_page_params (cursor updated_after location : Py.value) :
  Py.lookup "pageCursor" (page_params cursor updated_after location)
  = (if Py.truthy cursor then Some cursor else None)
  /\ Py.lookup "updatedAfter" (page_params cursor updated_after location)
     = (if Py.truthy updated_after then Some updated_after else None)
  /\ Py.lookup "location" (page_params cursor updated_after location)
     = (if Py.truthy location then Some location else None).
Proof.
  unfold page_params.
  destruct (Py.truthy cursor), (Py.truthy updated_after), (Py.truthy location);
    repeat split; reflexivity.
Qed.

Lemma fetch_done_of_api (E : env) (updated_after location : Py.value)
    (w : world) :
  fetch_done updated_after location Py.VNone w
    (snd (fetch_reader_document_list_api E updated_after location w)).
Proof. apply fetch_loop_done. Qed.

Lemma fetch_sends_one_request_per_reply_lemma (E : env)
    (updated_after location : Py.value) (w : world) :
  exists cursors,
    page_requests
      (emitted (fetch_reader_document_list_api E updated_after location) w)
    = map (fun cursor => page_params cursor updated_after location) cursors.
Proof.
  destruct (fetch_done_of_api E updated_after location w)
    as (evs & cursors & Htrace & _ & Hrequests & _).
  exists cursors. now rewrite (file_events_emitted _ _ evs Htrace).
Qed.


(** X2.  A fetch, however it ends, leaves the lastrun file as it was,
    sends nothing to the bookmarking service and takes no pause. *)
Theorem fetch_touches_only_the_source (E : env)
    (updated_after location : Py.value) (w : world) :
  lastrun_file (snd (fetch_reader_document_list_api E updated_after location w))
  = lastrun_file w
  /\ file_events
       (emitted (fetch_reader_document_list_api E updated_after location) w)
     = []
  /\ submissions
       (emitted (fetch_reader_document_list_api E updated_after location) w)
     = []
  /\ sleeps
       (emitted (fetch_reader_document_list_api E updated_after location) w)
     = [].
Proof.
  destruct (fetch_done_of_api E updated_after location w)
    as (evs & cursors & Htrace & Hfile & _ & _ & _ & Hsub & Hfiles & Hsleeps).
  rewrite (file_events_emitted _ _ evs Htrace).
  repeat split; assumption.
Qed.

(** The events of [get_new_readwise_documents]: those of its fetch, then
    what it prints and writes. *)
Lemma get_new_readwise_documents_emitted (E : env) (w : world) :
  exists tail,
    emitted (get_new_readwise_documents E) w
    = emitted (fetch_reader_document_list_api E (watermark w) Py.VNone) w
      ++ tail
    /\ page_requests tail = []
    /\ submissions tail = []
    /\ sleeps tail = []
    /\ readwise_replies (snd (get_new_readwise_documents E w))
       = readwise_replies
           (snd (fetch_reader_document_list_api E (watermark w) Py.VNone w)).
Proof.
  destruct (fetch_done_of_api E (watermark w) Py.VNone w)
    as (evs & cursors & Htrace & _).
  rewrite (file_events_emitted _ _ evs Htrace).
  pose proof (get_new_readwise_documents_run E w) as Hrun.
  destruct (fetch_reader_document_list_api E (watermark w) Py.VNone w)
    as [fetched w'] eqn:Hfetch.
  cbn [snd] in *.
  destruct fetched as [[|d ds]| |]; rewrite Hrun; cbn [snd].
  - exists [Print "Failed to fetch documents from Readwise API."].
    repeat split; try reflexivity.
    apply file_events_emitted. rewrite Hrun; cbn [snd log trace].
    now rewrite Htrace, app_assoc.
  - exists [Print (Py.str_nat (length (d :: ds))
                   ++ " documents returned from Readwise API.")%string;
            OpenW; FileWrite (now_isoformat E)].
    repeat split; try reflexivity.
    apply file_events_emitted. rewrite Hrun; cbn [snd trace].
    rewrite Htrace, <- app_assoc. reflexivity.
  - exists []. rewrite app_nil_r. repeat split; try reflexivity.
    apply file_events_emitted. now rewrite Hrun.
  - exists []. rewrite app_nil_r. repeat split; try reflexivity.
    apply file_events_emitted. now rewrite Hrun.
Qed.

Lemma get_new_requests_lookup (E : env) (w : world)
    (params : list (string * Py.value)) :
  In params (page_requests (emitted (get_new_readwise_documents E) w)) ->
  Py.lookup "updatedAfter" params
  = match lastrun_file w with
    | Some timestamp =>
        if String.eqb timestamp "" then None else Some (Py.VStr timestamp)
    | None => None
    end
  /\ Py.lookup "location" params = None.
Proof.
  intros Hin.
  destruct (get_new_readwise_documents_emitted E w)
    as (tail & Hemitted & Htail & _).
  rewrite Hemitted, page_requests_app, Htail, app_nil_r in Hin.
  destruct (fetch_sends_one_request_per_reply_lemma E (watermark w) Py.VNone w)
    as (cursors & Hrequests).
  rewrite Hrequests in Hin. apply in_map_iff in Hin as (cursor & <- & _).
  destruct (lookup_page_params cursor (watermark w) Py.VNone)
    as (_ & -> & ->).
  split; [|reflexivity].
  unfold watermark. destruct (lastrun_file w) as [timestamp|]; [|reflexivity].
  cbn. now destruct (String.eqb timestamp "").
Qed.

(** X3.  Every request [get_new_readwise_documents] sends asks for what was
    updated after the stored timestamp, when the lastrun file holds one;
    when the file is missing or empty it asks without [updatedAfter], that
    is for everything.  It never asks for a location. *)
Theorem requests_carry_the_stored_watermark (E : env) (w : world)
    (params : list (string * Py.value)) :
  In params (page_requests (emitted (get_new_readwise_documents E) w)) ->
  Py.lookup "updatedAfter" params
  = match lastrun_file w with
    | Some timestamp =>
        if String.eqb timestamp "" then None else Some (Py.VStr timestamp)
    | None => None
    end
  /\ Py.lookup "location" params = None.
Proof. apply get_new_requests_lookup. Qed.

(** ** Bodies that are not pages *)

(** X4.  A first response whose body is a JSON object without results and
    without next-page cursor, as the body of an error response is, makes
    [get_new_readwise_documents] return no documents after the one
    request: it prints that the fetch failed and leaves the lastrun file
    as it was. *)
Theorem error_body_is_reported_as_failed_fetch (E : env) (w : world)
    (r : response) (items : list (string * Py.value))
    (rest : list (option response)) :
  readwise_replies w = Some r :: rest ->
  json r = Some (Py.VDict items) ->
  Py.lookup "results" items = None ->
  Py.truthy (Py.get_default items "nextPageCursor" Py.VNone) = false ->
  get_new_readwise_documents E w
  = (Ok [],
     mkWorld (lastrun_file w)
             (trace w
              ++ turn_events E (watermark w) Py.VNone Py.VNone
              ++ [Print "Failed to fetch documents from Readwise API."])
             rest).
Proof.
  intros Hreplies Hjson Hresults Hcursor.
  rewrite get_new_readwise_documents_run.
  unfold fetch_reader_document_list_api.
  destruct w as [file t replies];
    cbn [readwise_replies lastrun_file trace] in *.
  subst replies.
  assert (Hpage : page_documents r = Some []).
  { unfold page_documents. now rewrite Hjson, Hresults. }
  cbn [length].
  rewrite (fetch_loop_turn E _ _ _ _ [] _ _ _ _ _ Hpage).
  unfold page_cursor; rewrite Hjson, Hcursor.
  unfold log; cbn [app trace lastrun_file readwise_replies].
  now rewrite <- app_assoc.
Qed.

(** The lines that read a body raise on everything that is not a JSON
    object. *)
Lemma page_step_not_object (full_data : list Py.value) (r : response)
    (body : Py.value) :
  json r = Some body ->
  (forall items, body <> Py.VDict items) ->
  page_step full_data (Some r) = Raise TypeError
  \/ page_step full_data (Some r) = Raise AttributeError.
Proof.
  intros Hjson Hnot.
  unfold page_step, response_json, or_raise; rewrite Hjson.
  destruct body as [| | |s|l|items]; try (left; reflexivity).
  - unfold add_results, py_contains.
    destruct (index 0 "results" s); [left|right]; reflexivity.
  - unfold add_results, py_contains.
    destruct (existsb _ l); [left|right]; reflexivity.
  - now destruct (Hnot items).
Qed.

(** X5.  When, after pages that each named a next page, a response has a
    body that is JSON but not an object (a list, a string, a number,
    [null]), the fetch raises TypeError or AttributeError and returns no
    document. *)
Theorem body_that_is_not_an_object_raises (E : env)
    (updated_after location : Py.value) (pages : list response)
    (r : response) (body : Py.value) (per_page : list (list Py.value))
    (rest : list (option response)) (w : world) :
  readwise_replies w = map Some pages ++ Some r :: rest ->
  Forall2 (fun page documents => page_documents page = Some documents)
          pages per_page ->
  Forall (fun page => Py.truthy (page_cursor page) = true) pages ->
  json r = Some body ->
  (forall items, body <> Py.VDict items) ->
  exists e w',
    fetch_reader_document_list_api E updated_after location w = (Raise e, w')
    /\ (e = TypeError \/ e = AttributeError).
Proof.
  intros Hreplies Hdocs Hmore Hjson Hnot.
  unfold fetch_reader_document_list_api.
  destruct w as [file t replies];
    cbn [readwise_replies lastrun_file trace] in *.
  subst replies.
  rewrite length_app, length_map; cbn [length].
  replace (S (length pages + S (length rest)))
    with (length pages + S (S (length rest))) by lia.
  rewrite (fetch_loop_pages E updated_after location pages per_page _ _ _ _ _ _
             Hdocs Hmore).
  rewrite fetch_loop_unfold; cbv zeta.
  destruct (page_step_not_object ([] ++ concat per_page) r body Hjson Hnot)
    as [-> | ->]; eexists _, _; split; eauto.
Qed.

(** ** What a document adds to the trace *)

(** The events of a document, whatever it is and however its processing
    ends: at most the one planned submission, none in a dry run; nothing
    for the source service or the lastrun file; a pause of three seconds,
    and only after a submission. *)
Lemma process_document_events (E : env) (DRY_RUN : bool) (document : Py.value)
    (w : world) :
  exists r evs,
    process_document E DRY_RUN document w = (r, log evs w)
    /\ r <> Stuck
    /\ submissions evs
       = (if DRY_RUN then [] else planned_submissions E [document])
    /\ page_requests evs = []
    /\ file_events evs = []
    /\ Forall (eq 3) (sleeps evs)
    /\ length (sleeps evs) <= length (submissions evs).
Proof.
  destruct document as [| | | | |fields];
    try (exists (Raise AttributeError), []; rewrite log_nil;
         repeat split; try discriminate; try constructor;
         now destruct DRY_RUN).
  destruct (process_document_run E fields DRY_RUN w)
    as (r & evs & Hrun & Hcase).
  exists r, evs. split; [assumption|].
  split; [now apply document_run_not_stuck in Hcase|].
  unfold planned_submissions, planned_submission; cbn [flat_map].
  inversion Hcase; subst;
    repeat match goal with
           | H : tags_str _ = _ |- _ => rewrite H; clear H
           | H : filtered_out _ _ _ = _ |- _ => rewrite H; clear H
           | H : py_slice_to _ _ = _ |- _ => rewrite H; clear H
           | H : format_created_at _ _ = _ |- _ => rewrite H; clear H
           end;
    repeat split; try reflexivity; try constructor;
    try (destruct DRY_RUN; reflexivity);
    try (cbn; lia); try (repeat constructor).
Qed.

(** The same for a batch. *)
Lemma submit_all_events (E : env) (DRY_RUN : bool)
    (documents : list Py.value) :
  forall w,
  exists evs,
    submit_all E DRY_RUN documents w = (Ok tt, log evs w)
    /\ submissions evs
       = (if DRY_RUN then [] else planned_submissions E documents)
    /\ page_requests evs = []
    /\ file_events evs = []
    /\ Forall (eq 3) (sleeps evs)
    /\ length (sleeps evs) <= length (submissions evs).
Proof.
  induction documents as [|document rest IH]; intros w.
  - exists []; rewrite log_nil.
    repeat split; try constructor. now destruct DRY_RUN.
  - rewrite submit_all_cons.
    destruct (process_document_events E DRY_RUN document w)
      as (r & evs1 & -> & _ & Hsub1 & Hpage1 & Hfile1 & Hthree1 & Hpaced1).
    cbn [snd].
    destruct (IH (log evs1 w))
      as (evs2 & -> & Hsub2 & Hpage2 & Hfile2 & Hthree2 & Hpaced2).
    exists (evs1 ++ evs2). rewrite log_log.
    rewrite submissions_app, page_requests_app, file_events_app, sleeps_app.
    rewrite Hsub1, Hsub2, Hpage1, Hpage2, Hfile1, Hfile2.
    repeat split.
    + destruct DRY_RUN; [reflexivity|].
      unfold planned_submissions; cbn [flat_map]. now rewrite app_nil_r.
    + apply Forall_app; split; assumption.
    + rewrite Hsub1 in Hpaced1; rewrite Hsub2 in Hpaced2.
      rewrite !length_app. lia.
Qed.

Lemma planned_submissions_length (E : env) (documents : list Py.value) :
  length (planned_submissions E documents) <= length documents.
Proof.
  induction documents as [|document rest IH]; [constructor|].
  unfold planned_submissions in *; cbn [flat_map]. rewrite length_app.
  destruct (planned_submission E document); cbn [length]; lia.
Qed.

(** ** The batch *)

(** X6.  What a run that is not a dry run sends to the bookmarking service
    is decided by the documents alone: in order, the planned submission of
    each document that has one, whatever the service answers and whatever
    becomes of the other documents. *)
Theorem batch_submits_what_is_planned (E : env) (documents : list Py.value)
    (w : world) :
  submissions (emitted (submit_all E false documents) w)
  = planned_submissions E documents.
Proof.
  destruct (submit_all_events E false documents w) as (evs & Hrun & Hsub & _).
  now rewrite (emitted_log _ _ _ _ Hrun).
Qed.

(** X7.  A dry run over a batch sends nothing to either service and takes
    no pause: it only prints. *)
Theorem dry_run_batch_sends_nothing (E : env) (documents : list Py.value)
    (w : world) :
  submissions (emitted (submit_all E true documents) w) = []
  /\ page_requests (emitted (submit_all E true documents) w) = []
  /\ sleeps (emitted (submit_all E true documents) w) = [].
Proof.
  destruct (submit_all_events E true documents w)
    as (evs & Hrun & Hsub & Hpage & _ & _ & Hpaced).
  rewrite (emitted_log _ _ _ _ Hrun).
  repeat split; try assumption.
  rewrite Hsub in Hpaced. now destruct (sleeps evs).
Qed.

(** X8.  The per-document loop never touches the lastrun file and never
    talks to the source service: the file and the replies still to come
    are after the loop what they were before it. *)
Theorem batch_leaves_file_and_source (E : env) (DRY_RUN : bool)
    (documents : list Py.value) (w : world) :
  lastrun_file (snd (submit_all E DRY_RUN documents w)) = lastrun_file w
  /\ readwise_replies (snd (submit_all E DRY_RUN documents w))
     = readwise_replies w
  /\ file_events (emitted (submit_all E DRY_RUN documents) w) = []
  /\ page_requests (emitted (submit_all E DRY_RUN documents) w) = [].
Proof.
  destruct (submit_all_events E DRY_RUN documents w)
    as (evs & Hrun & _ & Hpage & Hfile & _).
  rewrite (emitted_log _ _ _ _ Hrun), Hrun.
  repeat split; assumption.
Qed.

(** X9.  At most one submission is made per document, every pause lasts
    three seconds, and there are no more pauses than submissions. *)
Theorem batch_is_paced (E : env) (DRY_RUN : bool) (documents : list Py.value)
    (w : world) :
  length (submissions (emitted (submit_all E DRY_RUN documents) w))
  <= length documents
  /\ length (sleeps (emitted (submit_all E DRY_RUN documents) w))
     <= length (submissions (emitted (submit_all E DRY_RUN documents) w))
  /\ Forall (eq 3) (sleeps (emitted (submit_all E DRY_RUN documents) w)).
Proof.
  destruct (submit_all_events E DRY_RUN documents w)
    as (evs & Hrun & Hsub & _ & _ & Hthree & Hpaced).
  rewrite (emitted_log _ _ _ _ Hrun).
  repeat split; try assumption.
  rewrite Hsub. destruct DRY_RUN; [cbn; lia|].
  apply planned_submissions_length.
Qed.

(** ** One submission *)

Lemma planned_submission_fields (E : env) (document : Py.value)
    (params : list (string * Py.value)) :
  planned_submission E document = Some params ->
  exists fields description ts dt,
    document = Py.VDict fields
    /\ params = submission_params E fields description ts dt
    /\ tags_str (Py.get_default fields "tags" (Py.VList [])) = Ok ts
    /\ filtered_out (Py.get_default fields "category" Py.VNone)
                    (Py.get_default fields "location" Py.VNone)
                    (Py.get_default fields "source_url" Py.VNone) = false
    /\ py_slice_to TITLE_MAX (Py.get_default fields "title" Py.VNone)
       = Ok description
    /\ format_created_at E (Py.get_default fields "created_at" Py.VNone)
       = Ok dt.
Proof.
  unfold planned_submission.
  destruct document as [| | | | |fields]; try discriminate.
  destruct (tags_str _) as [ts| |] eqn:Htags; try discriminate.
  destruct (filtered_out _ _ _) eqn:Hfilter; try discriminate.
  destruct (py_slice_to _ _) as [description| |] eqn:Htitle; try discriminate.
  destruct (format_created_at _ _) as [dt| |] eqn:Hdate; try discriminate.
  intros [= <-]. exists fields, description, ts, dt. repeat split; assumption.
Qed.

Lemma in_planned_submissions (E : env) (documents : list Py.value)
    (params : list (string * Py.value)) :
  In params (planned_submissions E documents) ->
  exists document,
    In document documents /\ planned_submission E document = Some params.
Proof.
  unfold planned_submissions. rewrite in_flat_map.
  intros (document & Hin & Hparams). exists document; split; [assumption|].
  destruct (planned_submission E document) as [planned|]; [|destruct Hparams].
  destruct Hparams as [->|[]]. reflexivity.
Qed.

(** X10.  Every bookmark a run submits comes from one of its documents,
    and says: do not replace an existing bookmark; answer in JSON; here is
    the token.  Its URL is the source URL of the document, which is not
    empty, and the document is neither a highlight nor a feed entry. *)
Theorem submitted_bookmark_is_well_formed (E : env) (DRY_RUN : bool)
    (documents : list Py.value) (w : world)
    (params : list (string * Py.value)) :
  In params (submissions (emitted (submit_all E DRY_RUN documents) w)) ->
  exists fields,
    In (Py.VDict fields) documents
    /\ Py.lookup "replace" params = Some (Py.VStr "no")
    /\ Py.lookup "format" params = Some (Py.VStr "json")
    /\ Py.lookup "auth_token" params = Some (Py.VStr (PINBOARD_API_TOKEN E))
    /\ Py.lookup "url" params
       = Some (Py.get_default fields "source_url" Py.VNone)
    /\ Py.truthy (Py.get_default fields "source_url" Py.VNone) = true
    /\ Py.get_default fields "category" Py.VNone <> Py.VStr "highlight"
    /\ Py.get_default fields "location" Py.VNone <> Py.VStr "feed".
Proof.
  intros Hin.
  destruct (submit_all_events E DRY_RUN documents w) as (evs & Hrun & Hsub & _).
  rewrite (emitted_log _ _ _ _ Hrun), Hsub in Hin.
  destruct DRY_RUN; [destruct Hin|].
  apply in_planned_submissions in Hin as (document & Hdoc & Hplanned).
  apply planned_submission_fields in Hplanned
    as (fields & description & ts & dt & -> & -> & _ & Hfilter & _).
  exists fields. split; [assumption|].
  unfold filtered_out in Hfilter.
  apply orb_false_elim in Hfilter as (Hfilter & Hurl).
  apply orb_false_elim in Hfilter as (Hcategory & Hlocation).
  repeat split; try reflexivity.
  - now apply negb_false_iff in Hurl.
  - intros Heq; now rewrite Heq in Hcategory.
  - intros Heq; now rewrite Heq in Hlocation.
Qed.

(** X11.  A planned submission is sent, and then: when the service
    answers, whatever the status, the document is done without exception,
    after a line that tells success (200) or the status, and a pause of
    three seconds; when no answer comes, the exception of the request
    leaves [add_bookmark_to_pinboard] at once, without line and without
    pause. *)
Theorem answered_submission_is_logged_and_paced (E : env)
    (fields : list (string * Py.value)) (w : world)
    (params : list (string * Py.value)) :
  planned_submission E (Py.VDict fields) = Some params ->
  process_document E false (Py.VDict fields) w
  = match pinboard_server E
            (trace w ++ [HttpGet PINBOARD_API_URL params []]) with
    | Some r =>
        (Ok tt,
         log [HttpGet PINBOARD_API_URL params [];
              Print (if Z.eqb (status_code r) 200
                     then "Bookmark added to Pinboard: "
                          ++ Py.str (Py.get_default fields "title" Py.VNone)
                     else "Failed to add bookmark to Pinboard. Status Code: "
                          ++ Py.str_int (status_code r))%string;
              Sleep 3] w)
    | None =>
        (Raise ConnectionError, log [HttpGet PINBOARD_API_URL params []] w)
    end.
Proof.
  intros Hplanned.
  apply planned_submission_fields in Hplanned
    as (fields' & description & ts & dt & [= <-] & -> & Htags & Hfilter
        & Htitle & Hdate).
  destruct (process_document_run E fields false w) as (r & evs & -> & Hcase).
  inversion Hcase; subst; try congruence;
    replace ts0 with ts in * by congruence;
    replace description0 with description in * by congruence;
    replace dt0 with dt in * by congruence;
    match goal with
    | H : pinboard_server _ _ = _ |- _ => unfold submission in H; rewrite H
    end;
    reflexivity.
Qed.

(** X12.  A document without title, or without creation timestamp, is
    never submitted; when it is eligible and the run is not a dry run, its
    processing ends in a TypeError before any request. *)
Theorem document_without_title_or_date_is_not_submitted (E : env)
    (DRY_RUN : bool) (fields : list (string * Py.value)) (w : world) :
  Py.lookup "title" fields = None \/ Py.lookup "created_at" fields = None ->
  submissions (emitted (process_document E DRY_RUN (Py.VDict fields)) w) = []
  /\ (forall ts,
        tags_str (Py.get_default fields "tags" (Py.VList [])) = Ok ts ->
        filtered_out (Py.get_default fields "category" Py.VNone)
                     (Py.get_default fields "location" Py.VNone)
                     (Py.get_default fields "source_url" Py.VNone) = false ->
        process_document E false (Py.VDict fields) w = (Raise TypeError, w)).
Proof.
  intros Hmissing.
  assert (Hraises :
            py_slice_to TITLE_MAX (Py.get_default fields "title" Py.VNone)
            = Raise TypeError
            \/ format_created_at E (Py.get_default fields "created_at" Py.VNone)
               = Raise TypeError).
  { unfold Py.get_default.
    destruct Hmissing as [-> | ->]; [left|right]; reflexivity. }
  split.
  - destruct (process_document_events E DRY_RUN (Py.VDict fields) w)
      as (r & evs & Hrun & _ & Hsub & _).
    rewrite (emitted_log _ _ _ _ Hrun), Hsub.
    destruct DRY_RUN; [reflexivity|].
    unfold planned_submissions, planned_submission; cbn [flat_map].
    destruct (tags_str _); try reflexivity.
    destruct (filtered_out _ _ _); try reflexivity.
    destruct Hraises as [-> | ->]; [reflexivity|].
    now destruct (py_slice_to _ _).
  - intros ts Htags Hfilter.
    destruct (process_document_run E fields false w) as (r & evs & -> & Hcase).
    inversion Hcase; subst; try congruence;
      try (destruct Hraises; congruence).
    + rewrite log_nil.
      match goal with
      | H : py_slice_to _ ?title = Raise _ |- _ =>
          destruct title; try discriminate H; now injection H as <-
      end.
    + rewrite log_nil. destruct Hraises; congruence.
Qed.

(** X13.  What a dry run shows of a document a real run would submit: six
    lines and no exception; the URL, the extended text before its cut, and
    the timestamp as they would be sent; the tags without the fixed tag
    that a real run puts in front of them. *)
Theorem dry_run_previews_the_submission (E : env)
    (fields : list (string * Py.value)) (w : world)
    (params : list (string * Py.value)) :
  planned_submission E (Py.VDict fields) = Some params ->
  exists ts dt,
    process_document E true (Py.VDict fields) w
    = (Ok tt,
       log [Print ("Title: "
                   ++ Py.str (Py.get_default fields "title" Py.VNone));
            Print ("URL: "
                   ++ Py.str (Py.get_default fields "source_url" Py.VNone));
            Print ("Extended: " ++ extended_info fields);
            Print ("Tags: " ++ ts);
            Print ("dt: " ++ dt);
            Print "Adding bookmark to Pinboard (dry run)"] w)
    /\ Py.lookup "url" params
       = Some (Py.get_default fields "source_url" Py.VNone)
    /\ Py.lookup "extended" params
       = Some (Py.VStr (substring 0 (Z.to_nat 65536) (extended_info fields)))
    /\ Py.lookup "tags" params = Some (Py.VStr (".from:Reader " ++ ts))
    /\ Py.lookup "dt" params = Some (Py.VStr dt).
Proof.
  intros Hplanned.
  apply planned_submission_fields in Hplanned
    as (fields' & description & ts & dt & [= <-] & -> & Htags & Hfilter
        & Htitle & Hdate).
  exists ts, dt.
  destruct (process_document_run E fields true w) as (r & evs & -> & Hcase).
  inversion Hcase; subst; try congruence.
  replace ts0 with ts in * by congruence.
  replace dt0 with dt in * by congruence.
  repeat split; reflexivity.
Qed.

(** ** The whole run *)

(** A run without [--all]: the fetch, then the batch. *)
Lemma main_run (E : env) (dry_run : bool) (w : world) :
  main E dry_run false w
  = match get_new_readwise_documents E w with
    | (Ok new_documents, w') => submit_all E dry_run new_documents w'
    | (Raise e, w') => (Raise e, w')
    | (Stuck, w') => (Stuck, w')
    end.
Proof.
  unfold main, bind, ret.
  destruct (get_new_readwise_documents E w) as [[docs| |] w']; reflexivity.
Qed.

Lemma get_new_readwise_documents_trace (E : env) (w : world) :
  trace (snd (get_new_readwise_documents E w))
  = trace w ++ emitted (get_new_readwise_documents E) w.
Proof.
  destruct (fetch_done_of_api E (watermark w) Py.VNone w)
    as (evs & cursors & Htrace & _).
  pose proof (get_new_readwise_documents_run E w) as Hrun.
  destruct (fetch_reader_document_list_api E (watermark w) Py.VNone w)
    as [fetched w'].
  cbn [snd] in Htrace.
  assert (Hext : exists tail,
             trace (snd (get_new_readwise_documents E w)) = trace w ++ tail).
  { rewrite Hrun.
    destruct fetched as [[|d ds]| |]; cbn [snd log trace]; rewrite Htrace;
      try rewrite <- app_assoc; eexists; reflexivity. }
  destruct Hext as (tail & Htail).
  now rewrite (file_events_emitted _ _ tail Htail).
Qed.

(** The events of a run without [--all]: those of the fetch, then those
    of the batch. *)
Lemma main_emitted (E : env) (dry_run : bool) (w : world) :
  emitted (main E dry_run false) w
  = emitted (get_new_readwise_documents E) w
    ++ match get_new_readwise_documents E w with
       | (Ok new_documents, w') =>
           emitted (submit_all E dry_run new_documents) w'
       | _ => []
       end.
Proof.
  apply file_events_emitted.
  rewrite main_run.
  pose proof (get_new_readwise_documents_trace E w) as Htrace.
  destruct (get_new_readwise_documents E w) as [[docs| |] w'] eqn:Hnew;
    cbn [snd] in Htrace; try (now rewrite app_nil_r).
  destruct (submit_all_events E dry_run docs w') as (evs & Hrun & _).
  rewrite (emitted_log _ _ _ _ Hrun), Hrun; cbn [snd log trace].
  now rewrite Htrace, app_assoc.
Qed.

(** X14.  In a run without [--all] only the fetch can end the run with an
    exception: when [get_new_readwise_documents] returns, the run returns,
    whatever the documents.  And the lastrun file is decided by the fetch:
    it is written before the first document is looked at, and nothing that
    happens to the documents changes it. *)
Theorem only_the_fetch_can_end_the_run (E : env) (dry_run : bool) (w : world) :
  fst (main E dry_run false w)
  = match fst (get_new_readwise_documents E w) with
    | Ok _ => Ok tt
    | Raise e => Raise e
    | Stuck => Stuck
    end
  /\ lastrun_file (snd (main E dry_run false w))
     = lastrun_file (snd (get_new_readwise_documents E w)).
Proof.
  rewrite main_run.
  destruct (get_new_readwise_documents E w) as [[docs| |] w'];
    cbn [fst snd]; try (split; reflexivity).
  destruct (submit_all_events E dry_run docs w') as (evs & -> & _).
  split; reflexivity.
Qed.

(** X15.  A run that is neither [--all] nor a dry run submits the planned
    submissions of the documents it fetched, in the order of the fetch. *)
Theorem run_submits_what_it_fetched (E : env) (w w' : world)
    (new_documents : list Py.value) :
  get_new_readwise_documents E w = (Ok new_documents, w') ->
  submissions (emitted (main E false false) w)
  = planned_submissions E new_documents.
Proof.
  intros Hnew.
  rewrite main_emitted, Hnew, submissions_app.
  destruct (get_new_readwise_documents_emitted E w)
    as (tail & -> & _ & Htail & _).
  destruct (fetch_done_of_api E (watermark w) Py.VNone w)
    as (evs & cursors & Htrace & _ & _ & _ & _ & Hsub & _).
  rewrite (file_events_emitted _ _ evs Htrace).
  rewrite submissions_app, Hsub, Htail; cbn [app].
  destruct (submit_all_events E false new_documents w')
    as (evs' & Hrun & Hsub' & _).
  now rewrite (emitted_log _ _ _ _ Hrun).
Qed.

(** X16.  After a run with [--all], which has emptied the lastrun file
    before it stopped, a run without [--all] asks the source service for
    everything: none of its requests carries [updatedAfter]. *)
Theorem run_after_all_flag_fetches_everything (E : env)
    (dry_run dry_run' : bool) (w : world) (params : list (string * Py.value)) :
  In params
     (page_requests
        (emitted (main E dry_run' false) (snd (main E dry_run true w)))) ->
  Py.lookup "updatedAfter" params = None.
Proof.
  assert (Hfile : lastrun_file (snd (main E dry_run true w)) = Some "")
    by reflexivity.
  set (w1 := snd (main E dry_run true w)) in *.
  intros Hin.
  rewrite main_emitted, page_requests_app in Hin.
  apply in_app_or in Hin as [Hin|Hin].
  - apply get_new_requests_lookup in Hin as (Hafter & _).
    now rewrite Hfile in Hafter.
  - destruct (get_new_readwise_documents E w1) as [[docs| |] w2];
      try destruct Hin.
    destruct (submit_all_events E dry_run' docs w2)
      as (evs & Hrun & _ & Hpage & _).
    rewrite (emitted_log _ _ _ _ Hrun), Hpage in Hin. destruct Hin.
Qed.

(** ** Tags *)

Lemma remove_spaces_no_space (tag : string) :
  Py.mem_char " " (Py.remove_spaces tag) = false.
Proof.
  induction tag as [|c rest IH]; [reflexivity|].
  cbn [Py.remove_spaces]. destruct (Ascii.eqb c " ") eqn:Hc; [assumption|].
  cbn [Py.mem_char]. rewrite IH, orb_false_r.
  rewrite Ascii.eqb_sym. exact Hc.
Qed.

Lemma remove_spaces_without_space (tag : string) :
  Py.mem_char " " tag = false -> Py.remove_spaces tag = tag.
Proof.
  induction tag as [|c rest IH]; [reflexivity|].
  cbn [Py.remove_spaces Py.mem_char]. intros Hmem.
  apply orb_false_elim in Hmem as (Hc & Hrest).
  rewrite Ascii.eqb_sym in Hc. rewrite Hc. now rewrite IH.
Qed.

(** X17.  The tags string of a mapping is made of its keys, in their
    order and whatever they map to, and the one of a sequence of names of
    these names: each with its spaces removed, joined by single spaces.
    No tag keeps a space, and a tag that had none is sent as it is.
    Removing the spaces a second time changes nothing. *)
Theorem tags_are_stripped_of_spaces (mapping : list (string * Py.value))
    (names : list string) :
  tags_str (Py.VDict mapping)
  = Ok (String.concat " " (map Py.remove_spaces (map fst mapping)))
  /\ tags_str (Py.VList (map Py.VStr names))
     = Ok (String.concat " " (map Py.remove_spaces names))
  /\ (forall tag, Py.mem_char " " (Py.remove_spaces tag) = false)
  /\ (forall tag, Py.mem_char " " tag = false -> Py.remove_spaces tag = tag)
  /\ (forall tag,
        Py.remove_spaces (Py.remove_spaces tag) = Py.remove_spaces tag).
Proof.
  repeat split.
  - apply tags_str_mapping.
  - apply tags_str_sequence.
  - apply remove_spaces_no_space.
  - apply remove_spaces_without_space.
  - intros tag. apply remove_spaces_without_space, remove_spaces_no_space.
Qed.

(** ** The lastrun file *)


(** ** The timestamp sent *)

Lemma digits_app (rest : string) (width : nat) :
  forall acc s n r,
    Iso.digits width acc s = Some (n, r) ->
    Iso.digits width acc (s ++ rest) = Some (n, (r ++ rest)%string).
Proof.
  induction width as [|width IH]; intros acc s n r.
  - simpl. now intros [= <- <-].
  - destruct s as [|c s]; simpl; [discriminate|].
    destruct (Iso.digit c); [apply IH|discriminate].
Qed.

Lemma reads_back_between (width first count : nat) :
  forallb (reads_back width) (seq first count) = true ->
  forall n, first <= n < first + count ->
    String.length (padded width n) = width
    /\ forall rest,
         Iso.digits width 0 (padded width n ++ rest) = Some (n, rest).
Proof.
  intros Hall n Hn.
  rewrite forallb_forall in Hall.
  specialize (Hall n). rewrite in_seq in Hall.
  assert (Hread : reads_back width n = true) by (apply Hall; lia).
  unfold reads_back in Hread.
  destruct (Iso.digits width 0 (padded width n)) as [[m r]|] eqn:Hdigits;
    [|discriminate].
  destruct r; [|discriminate].
  apply andb_prop in Hread as (Hm & Hlen).
  apply Nat.eqb_eq in Hm, Hlen. subst m.
  split; [assumption|].
  intros rest. now rewrite (digits_app rest _ _ _ _ _ Hdigits).
Qed.

Lemma two_digits_read_back (n : nat) :
  n < 100 ->
  String.length (padded 2 n) = 2
  /\ forall rest, Iso.digits 2 0 (padded 2 n ++ rest) = Some (n, rest).
Proof.
  intros Hn. apply (reads_back_between 2 0 100); [|lia].
  vm_compute. reflexivity.
Qed.

Lemma four_digits_read_back (n : nat) :
  1000 <= n < 10 * 1000 ->
  String.length (padded 4 n) = 4
  /\ forall rest, Iso.digits 4 0 (padded 4 n ++ rest) = Some (n, rest).
Proof.
  intros Hn. apply (reads_back_between 4 1000 (9 * 1000)); [|lia].
  vm_compute. reflexivity.
Qed.

Lemma length_append (a b : string) :
  String.length (a ++ b) = String.length a + String.length b.
Proof. induction a as [|c a IH]; simpl; auto. Qed.

Lemma wall_clock_ok_bounds (d : datetime) :
  wall_clock_ok d = true ->
  1000 <= year d < 10 * 1000
  /\ 1 <= month d <= 12
  /\ 1 <= day d <= Iso.days_in_month (year d) (month d)
  /\ hour d < 24 /\ minute d < 60 /\ second d < 60.
Proof.
  unfold wall_clock_ok. rewrite !andb_true_iff.
  rewrite !Nat.leb_le, !Nat.ltb_lt. tauto.
Qed.

Lemma days_in_month_below (y m : nat) : Iso.days_in_month y m < 100.
Proof.
  unfold Iso.days_in_month.
  do 12 (destruct m as [|m]; [try destruct (Iso.leap y); lia|]). lia.
Qed.

(** The text [strftime] makes of a date and time of day has twenty
    characters and reads back as that date and time, at offset zero. *)
Lemma strftime_pinboard_reads_back (d : datetime) :
  wall_clock_ok d = true ->
  String.length (strftime_pinboard d) = 20
  /\ Iso.parse (strftime_pinboard d)
     = Some (mkDatetime (year d) (month d) (day d) (hour d) (minute d)
                        (second d) 0 (Some 0%Z)).
Proof.
  intros Hok.
  pose proof Hok as Hbounds.
  apply wall_clock_ok_bounds in Hbounds
    as (Hyear & Hmonth & Hday & Hhour & Hminute & Hsecond).
  pose proof (days_in_month_below (year d) (month d)) as Hdays.
  destruct (four_digits_read_back (year d) Hyear) as (Hlen_y & Hread_y).
  destruct (two_digits_read_back (month d)) as (Hlen_mo & Hread_mo); [lia|].
  destruct (two_digits_read_back (day d)) as (Hlen_d & Hread_d); [lia|].
  destruct (two_digits_read_back (hour d)) as (Hlen_h & Hread_h); [lia|].
  destruct (two_digits_read_back (minute d)) as (Hlen_mi & Hread_mi); [lia|].
  destruct (two_digits_read_back (second d)) as (Hlen_s & Hread_s); [lia|].
  unfold strftime_pinboard. split.
  - rewrite !length_append, Hlen_y, Hlen_mo, Hlen_d, Hlen_h, Hlen_mi,
      Hlen_s. reflexivity.
  - unfold Iso.parse.
    rewrite Hread_y; cbn [Iso.bind Iso.expect append];
      rewrite Ascii.eqb_refl; cbn [Iso.bind].
    rewrite Hread_mo; cbn [Iso.bind Iso.expect append];
      rewrite Ascii.eqb_refl; cbn [Iso.bind].
    rewrite Hread_d; cbn [Iso.bind Iso.expect append];
      rewrite Ascii.eqb_refl; cbn [Iso.bind].
    rewrite Hread_h; cbn [Iso.bind Iso.expect append];
      rewrite Ascii.eqb_refl; cbn [Iso.bind].
    rewrite Hread_mi; cbn [Iso.bind Iso.expect append];
      rewrite Ascii.eqb_refl; cbn [Iso.bind].
    rewrite Hread_s; cbn.
    match goal with
    | |- (if ?valid then _ else _) = _ =>
        assert (Hvalid : valid = true); [|now rewrite Hvalid]
    end.
    rewrite !andb_true_iff; repeat split; try (apply Nat.leb_le; lia).
    + destruct (year d) eqn:Hy; [lia|reflexivity].
    + destruct (month d) eqn:Hmo; [lia|reflexivity].
    + destruct (day d) eqn:Hd; [lia|reflexivity].
Qed.

(** X19.  For a creation timestamp that the parser reads as a date and a
    time of day, with a year of four digits, the timestamp sent has the
    twenty characters of [YYYY-MM-DDTHH:MM:SSZ]: it reads back as the same
    date and time of day, at offset zero, the fraction of a second
    dropped. *)
Theorem sent_timestamp_is_well_formed (E : env) (text : string) (d : datetime) :
  dateutil_parse E text = Some d ->
  wall_clock_ok d = true ->
  exists dt,
    format_created_at E (Py.VStr text) = Ok dt
    /\ String.length dt = 20
    /\ Iso.parse dt
       = Some (mkDatetime (year d) (month d) (day d) (hour d) (minute d)
                          (second d) 0 (Some 0%Z)).
Proof.
  intros Hparse Hok.
  exists (strftime_pinboard d).
  unfold format_created_at. rewrite Hparse.
  split; [reflexivity|].
  now apply strftime_pinboard_reads_back.
Qed.

(** * The script on the concrete records *)

Example format_created_at_utc :
  format_created_at demo_env (Py.VStr "2023-05-01T12:00:00+00:00")
  = Ok "2023-05-01T12:00:00Z".
Proof. reflexivity. Qed.

Example watermark_round_trip (w : world) :
  get_last_run_timestamp
    (snd (set_last_run_timestamp (Py.VStr "2023-01-01T00:00:00") w))
  = (Ok (Py.VStr "2023-01-01T00:00:00"),
     mkWorld (Some "2023-01-01T00:00:00")
             (trace w ++ [OpenW; FileWrite "2023-01-01T00:00:00"])
             (readwise_replies w))
  /\ get_last_run_timestamp (first_run []) = (Ok Py.VNone, first_run []).
Proof.
  split; [|reflexivity].
  unfold set_last_run_timestamp, get_last_run_timestamp; simpl.
  now rewrite <- app_assoc.
Qed.

(** The watermark is written after a fetch that brought documents, *)
Example watermark_after_two_pages :
  lastrun_file
    (snd (get_new_readwise_documents demo_env
            (later_run [Some page_one; Some page_two])))
  = Some "2024-01-01T10:00:00.000001".
Proof. reflexivity. Qed.

(** and left alone after one that brought none. *)
Example watermark_after_empty_fetch :
  get_new_readwise_documents demo_env (later_run [Some empty_page])
  = (Ok [],
     mkWorld (Some "2023-01-01T00:00:00")
       [Print ("Making export API request with params "
               ++ "{'updatedAfter': '2023-01-01T00:00:00'}...");
        HttpGet READWISE_API_URL
                [("updatedAfter", Py.VStr "2023-01-01T00:00:00")]
                [("Authorization", "Token readwise-key")];
        Print "Failed to fetch documents from Readwise API."]
       []).
Proof. reflexivity. Qed.

(** A response whose body is JSON without results, as an error body is,
    adds nothing and ends the pagination: what was accumulated is
    returned. *)
Example error_body_ends_pagination :
  fst (fetch_reader_document_list_api demo_env Py.VNone Py.VNone
         (first_run [Some page_one; Some throttled]))
  = Ok [Py.VDict article; Py.VDict highlight].
Proof. reflexivity. Qed.

(** A whole run over the two pages: the article and the long article are
    submitted, the highlight is not. *)
Example main_submits_eligible_documents :
  submissions (emitted (main demo_env false false)
                       (first_run [Some page_one; Some page_two]))
  = [article_params; long_article_params].
Proof. vm_compute. reflexivity. Qed.

(** A record that raises is passed over and the next one is submitted. *)
Example batch_goes_on_after_bad_record :
  submissions
    (emitted (submit_all demo_env false
                [Py.VStr "not a record"; Py.VDict highlight_null_tags;
                 Py.VDict article])
             (first_run []))
  = [article_params].
Proof. vm_compute. reflexivity. Qed.

Lemma filtered_document_is_skipped_witness :
  submissions (emitted (process_document demo_env false (Py.VDict highlight))
                       (first_run [])) = []
  /\ (forall ts,
        tags_str (Py.get_default highlight "tags" (Py.VList [])) = Ok ts ->
        process_document demo_env false (Py.VDict highlight) (first_run [])
        = (Ok tt, log [Print (ignoring_line highlight)] (first_run [])))
  /\ (forall e,
        tags_str (Py.get_default highlight "tags" (Py.VList [])) = Raise e ->
        process_document demo_env false (Py.VDict highlight) (first_run [])
        = (Raise e, first_run [])).
Proof.
  apply (filtered_document_is_skipped demo_env false highlight (first_run [])).
  left; reflexivity.
Defined.

(** The line the highlight gets. *)
Example highlight_is_logged :
  process_document demo_env false (Py.VDict highlight) (first_run [])
  = (Ok tt,
     mkWorld None
       [Print ("Ignoring document: A highlight (category: highlight, "
               ++ "location: None, source_url: https://example.org/a)")]
       []).
Proof. reflexivity. Qed.

(** A highlight whose tags are [null] is dropped without a line on the
    console: building the tags string raises before the filter is reached,
    and the main loop swallows the exception. *)
Lemma highlight_with_null_tags_is_not_logged :
  Py.get_default highlight_null_tags "category" Py.VNone = Py.VStr "highlight"
  /\ process_document demo_env false (Py.VDict highlight_null_tags)
                      (first_run [])
     = (Raise TypeError, first_run [])
  /\ submit_all demo_env false [Py.VDict highlight_null_tags] (first_run [])
     = (Ok tt, first_run [])
  /\ ~ (exists line,
          In (Print line)
             (trace (snd (submit_all demo_env false
                            [Py.VDict highlight_null_tags] (first_run []))))).
Proof.
  repeat split.
  intros (line & Hin). exact Hin.
Qed.

Lemma failed_page_request_raises_witness :
  exists w',
    fetch_reader_document_list_api demo_env Py.VNone Py.VNone
      (first_run [Some page_one; None])
    = (Raise ConnectionError, w')
    /\ lastrun_file w' = lastrun_file (first_run [Some page_one; None]).
Proof.
  apply (failed_page_request_raises demo_env Py.VNone Py.VNone [page_one] None
           [[Py.VDict article; Py.VDict highlight]] []
           (first_run [Some page_one; None])).
  - reflexivity.
  - repeat constructor.
  - repeat constructor.
  - exact I.
Defined.

(** When the second page request gets no response, the two documents of
    the first page are not returned: the error is, and it goes on through
    [get_new_readwise_documents]. *)
Lemma failed_second_page_loses_first :
  fst (fetch_reader_document_list_api demo_env Py.VNone Py.VNone
         (first_run [Some page_one; None]))
  = Raise ConnectionError
  /\ fst (fetch_reader_document_list_api demo_env Py.VNone Py.VNone
            (first_run [Some page_one; None]))
     <> Ok [Py.VDict article; Py.VDict highlight]
  /\ fst (get_new_readwise_documents demo_env (first_run [Some page_one; None]))
     = Raise ConnectionError.
Proof. repeat split. discriminate. Qed.

Lemma format_created_at_keeps_wall_clock_witness :
  format_created_at demo_env (Py.VStr "2023-05-01T12:00:00+02:00")
  = Ok "2023-05-01T12:00:00Z"
  /\ instant (mkDatetime 2023 5 1 12 0 0 0 (Some 7200%Z)) = 1682935200%Z
  /\ instant (mkDatetime 2023 5 1 12 0 0 0 (Some 0%Z)) = 1682942400%Z.
Proof.
  apply (format_created_at_keeps_wall_clock demo_env).
  reflexivity.
Defined.

(** The pagination scenario: three documents in page order, after two
    requests, the second with the cursor "X". *)
Lemma fetch_accumulates_pages_witness :
  exists evs,
    fetch_reader_document_list_api demo_env Py.VNone Py.VNone
      (first_run [Some page_one; Some page_two])
    = (Ok [Py.VDict article; Py.VDict highlight; Py.VDict long_article],
       mkWorld None evs [])
    /\ page_requests evs = [[]; [("pageCursor", Py.VStr "X")]]
    /\ length (page_requests evs) = 2.
Proof.
  apply (fetch_accumulates_pages demo_env Py.VNone Py.VNone [page_one] page_two
           [[Py.VDict article; Py.VDict highlight]; [Py.VDict long_article]] []
           (first_run [Some page_one; Some page_two])).
  - reflexivity.
  - repeat constructor.
  - repeat constructor.
  - reflexivity.
Defined.

Lemma submitted_tags_of_mapping_witness :
  (forall params,
      In params
         (submissions
            (emitted (process_document demo_env false (Py.VDict article))
                     (first_run []))) ->
      Py.lookup "tags" params = Some (Py.VStr ".from:Reader a bx"))
  /\ exists params,
       submissions (emitted (process_document demo_env false (Py.VDict article))
                            (first_run []))
       = [params].
Proof.
  destruct (submitted_tags_of_mapping demo_env false article (first_run []))
    as (Htags & Hsent); [reflexivity|].
  split; [exact Htags|].
  apply Hsent; [reflexivity|reflexivity| |]; eexists; reflexivity.
Defined.

(** Of the 300 characters of the title, 255 are submitted. *)
Lemma submitted_title_and_extended_are_truncated_witness :
  exists description extended,
    Py.lookup "description" long_article_params = Some description
    /\ py_slice_to 255 (Py.get_default long_article "title" Py.VNone)
       = Ok description
    /\ match description with
       | Py.VStr s => String.length s <= 255
       | Py.VList l => length l <= 255
       | _ => False
       end
    /\ Py.lookup "extended" long_article_params = Some (Py.VStr extended)
    /\ extended = substring 0 (Z.to_nat 65536) (extended_info long_article)
    /\ (Z.of_nat (String.length extended) <= 65536)%Z.
Proof.
  apply (submitted_title_and_extended_are_truncated demo_env false long_article
           (first_run [])).
  left; vm_compute; reflexivity.
Defined.

Example long_title_is_cut :
  String.length long_title = 300
  /\ Py.lookup "description" long_article_params
     = Some (Py.VStr (repeat_char "t" 255)).
Proof. split; reflexivity. Qed.

(** In a dry run the 300 characters of the title are all printed. *)
Lemma dry_run_prints_untruncated_witness :
  exists rest,
    emitted (process_document demo_env true (Py.VDict long_article))
            (first_run [])
    = Print ("Title: " ++ long_title)
      :: Print "URL: https://example.org/long"
      :: Print ("Extended: " ++ newline ++ "by , ")
      :: Print "Tags: " :: rest
    /\ submissions
         (emitted (process_document demo_env true (Py.VDict long_article))
                  (first_run [])) = [].
Proof.
  apply (dry_run_prints_untruncated demo_env long_article (first_run []) "");
    reflexivity.
Defined.

(** * The further properties on the concrete records *)

Lemma requests_carry_the_stored_watermark_witness :
  In [("pageCursor", Py.VStr "X");
      ("updatedAfter", Py.VStr "2023-01-01T00:00:00")]
     (page_requests
        (emitted (get_new_readwise_documents demo_env)
                 (later_run [Some page_one; Some page_two])))
  /\ Py.lookup "updatedAfter"
       [("pageCursor", Py.VStr "X");
        ("updatedAfter", Py.VStr "2023-01-01T00:00:00")]
     = Some (Py.VStr "2023-01-01T00:00:00")
  /\ Py.lookup "location"
       [("pageCursor", Py.VStr "X");
        ("updatedAfter", Py.VStr "2023-01-01T00:00:00")]
     = None.
Proof.
  assert (Hin : In [("pageCursor", Py.VStr "X");
                    ("updatedAfter", Py.VStr "2023-01-01T00:00:00")]
                   (page_requests
                      (emitted (get_new_readwise_documents demo_env)
                               (later_run [Some page_one; Some page_two]))))
    by (right; left; reflexivity).
  split; [exact Hin|].
  exact (requests_carry_the_stored_watermark demo_env
           (later_run [Some page_one; Some page_two]) _ Hin).
Defined.

Lemma error_body_is_reported_as_failed_fetch_witness :
  get_new_readwise_documents demo_env (later_run [Some throttled])
  = (Ok [],
     mkWorld (Some "2023-01-01T00:00:00")
       [Print ("Making export API request with params "
               ++ "{'updatedAfter': '2023-01-01T00:00:00'}...");
        HttpGet READWISE_API_URL
                [("updatedAfter", Py.VStr "2023-01-01T00:00:00")]
                [("Authorization", "Token readwise-key")];
        Print "Failed to fetch documents from Readwise API."]
       []).
Proof.
  apply (error_body_is_reported_as_failed_fetch demo_env
           (later_run [Some throttled]) throttled
           [("detail", Py.VStr "Request was throttled.")] []);
    reflexivity.
Defined.

Lemma body_that_is_not_an_object_raises_witness :
  exists e w',
    fetch_reader_document_list_api demo_env Py.VNone Py.VNone
      (first_run [Some page_one; Some list_body])
    = (Raise e, w')
    /\ (e = TypeError \/ e = AttributeError).
Proof.
  apply (body_that_is_not_an_object_raises demo_env Py.VNone Py.VNone
           [page_one] list_body (Py.VList [])
           [[Py.VDict article; Py.VDict highlight]] []
           (first_run [Some page_one; Some list_body])).
  - reflexivity.
  - repeat constructor.
  - repeat constructor.
  - reflexivity.
  - discriminate.
Defined.

Lemma submitted_bookmark_is_well_formed_witness :
  In article_params
     (submissions
        (emitted (submit_all demo_env false
                    [Py.VDict highlight; Py.VDict article])
                 (first_run [])))
  /\ exists fields,
       In (Py.VDict fields) [Py.VDict highlight; Py.VDict article]
       /\ Py.lookup "replace" article_params = Some (Py.VStr "no")
       /\ Py.lookup "format" article_params = Some (Py.VStr "json")
       /\ Py.lookup "auth_token" article_params
          = Some (Py.VStr (PINBOARD_API_TOKEN demo_env))
       /\ Py.lookup "url" article_params
          = Some (Py.get_default fields "source_url" Py.VNone)
       /\ Py.truthy (Py.get_default fields "source_url" Py.VNone) = true
       /\ Py.get_default fields "category" Py.VNone <> Py.VStr "highlight"
       /\ Py.get_default fields "location" Py.VNone <> Py.VStr "feed".
Proof.
  assert (Hin : In article_params
                   (submissions
                      (emitted (submit_all demo_env false
                                  [Py.VDict highlight; Py.VDict article])
                               (first_run []))))
    by (left; vm_compute; reflexivity).
  split; [exact Hin|].
  exact (submitted_bookmark_is_well_formed demo_env false _ _ _ Hin).
Defined.

Lemma answered_submission_is_logged_and_paced_witness :
  process_document refusing_env false (Py.VDict article) (first_run [])
  = (Ok tt,
     log [HttpGet PINBOARD_API_URL article_params [];
          Print "Failed to add bookmark to Pinboard. Status Code: 429";
          Sleep 3] (first_run [])).
Proof.
  apply (answered_submission_is_logged_and_paced refusing_env article
           (first_run []) article_params).
  reflexivity.
Defined.

Lemma document_without_title_or_date_is_not_submitted_witness :
  submissions (emitted (process_document demo_env false (Py.VDict untitled))
                       (first_run [])) = []
  /\ (forall ts,
        tags_str (Py.get_default untitled "tags" (Py.VList [])) = Ok ts ->
        filtered_out (Py.get_default untitled "category" Py.VNone)
                     (Py.get_default untitled "location" Py.VNone)
                     (Py.get_default untitled "source_url" Py.VNone) = false ->
        process_document demo_env false (Py.VDict untitled) (first_run [])
        = (Raise TypeError, first_run [])).
Proof.
  apply (document_without_title_or_date_is_not_submitted demo_env false
           untitled (first_run [])).
  left; reflexivity.
Defined.

Lemma dry_run_previews_the_submission_witness :
  exists ts dt,
    process_document demo_env true (Py.VDict article) (first_run [])
    = (Ok tt,
       log [Print "Title: An article";
            Print "URL: https://example.org/a";
            Print ("Extended: " ++ extended_info article);
            Print ("Tags: " ++ ts);
            Print ("dt: " ++ dt);
            Print "Adding bookmark to Pinboard (dry run)"] (first_run []))
    /\ Py.lookup "url" article_params = Some (Py.VStr "https://example.org/a")
    /\ Py.lookup "extended" article_params
       = Some (Py.VStr (substring 0 (Z.to_nat 65536) (extended_info article)))
    /\ Py.lookup "tags" article_params = Some (Py.VStr (".from:Reader " ++ ts))
    /\ Py.lookup "dt" article_params = Some (Py.VStr dt).
Proof.
  apply (dry_run_previews_the_submission demo_env article (first_run [])
           article_params).
  reflexivity.
Defined.

Lemma run_submits_what_it_fetched_witness :
  submissions (emitted (main demo_env false false)
                       (first_run [Some page_one; Some page_two]))
  = planned_submissions demo_env
      [Py.VDict article; Py.VDict highlight; Py.VDict long_article].
Proof.
  apply (run_submits_what_it_fetched demo_env
           (first_run [Some page_one; Some page_two])
           (snd (get_new_readwise_documents demo_env
                   (first_run [Some page_one; Some page_two])))).
  reflexivity.
Defined.

Lemma run_after_all_flag_fetches_everything_witness :
  In [("pageCursor", Py.VStr "X")]
     (page_requests
        (emitted (main demo_env false false)
           (snd (main demo_env false true
                   (later_run [Some page_one; Some page_two])))))
  /\ Py.lookup "updatedAfter" [("pageCursor", Py.VStr "X")] = None.
Proof.
  assert (Hin : In [("pageCursor", Py.VStr "X")]
                   (page_requests
                      (emitted (main demo_env false false)
                         (snd (main demo_env false true
                                 (later_run [Some page_one; Some page_two]))))))
    by (right; left; vm_compute; reflexivity).
  split; [exact Hin|].
  exact (run_after_all_flag_fetches_everything demo_env false false _ _ Hin).
Defined.

Lemma sent_timestamp_is_well_formed_witness :
  exists dt,
    format_created_at demo_env (Py.VStr "2023-05-01T12:00:00.123456+02:00")
    = Ok dt
    /\ String.length dt = 20
    /\ Iso.parse dt = Some (mkDatetime 2023 5 1 12 0 0 0 (Some 0%Z)).
Proof.
  apply (sent_timestamp_is_well_formed demo_env
           "2023-05-01T12:00:00.123456+02:00"
           (mkDatetime 2023 5 1 12 0 0 123456 (Some 7200%Z)));
    reflexivity.
Defined.
